(** * alert_bot: a shallow embedding of [bot.py]

    The monitor polls a ClickHouse table per instrument, collects the
    instruments whose newest row is older than ten minutes, sends one
    Telegram alert and runs a restart script, then sleeps until the next
    ten-minute boundary.

    Python [str] values are modelled by [string], read as the UTF-8 bytes
    of the text: every reserved MarkdownV2 character is ASCII, and no byte
    of a multi-byte UTF-8 sequence is, so escaping bytes and escaping code
    points agree.  Wall-clock datetimes are integers (nanoseconds).  The
    event loop's [time()] is a Python [float]: an IEEE 754 binary64 number,
    modelled by the primitive type [float] with its own rounding. *)

From Stdlib Require Import String Ascii List Bool Arith ZArith Lia.
From Stdlib Require Import QArith.
From Stdlib Require Import Floats Uint63.
From Stdlib Require Import DecimalString.
Import ListNotations.

Local Close Scope Q_scope.
Local Open Scope string_scope.
Local Open Scope list_scope.

(** ** Python strings *)

Module Py.

(** [list(text)]: the characters of a string, in order. *)
Fixpoint chars (text : string) : list ascii :=
  match text with
  | EmptyString => []
  | String c rest => c :: chars rest
  end.

(** [sep.join(parts)]. *)
Fixpoint join (sep : string) (parts : list string) : string :=
  match parts with
  | [] => ""
  | [p] => p
  | p :: rest => (p ++ sep ++ join sep rest)%string
  end.

(** [str(n)] for a non-negative integer, i.e. the [{len(...)}] of an
    f-string. *)
Definition str_of_nat (n : nat) : string :=
  NilZero.string_of_uint (Nat.to_uint n).

(** [char in chars_list]. *)
Definition contains (c : ascii) (l : list ascii) : bool :=
  existsb (Ascii.eqb c) l.

End Py.

Arguments Py.contains : simpl never.

(** ** [escape_markdown] *)

Definition backslash : ascii := "\"%char.

Definition SPECIAL_CHARS : list ascii :=
  [ "\"; "_"; "*"; "["; "]"; "("; ")"; "~"; "`"; ">"; "<"; "&"; "#";
    "+"; "-"; "="; "|"; "{"; "}"; "."; "!" ]%char.

(** One item of the generator expression:
    [f"\\{char}" if char in SPECIAL_CHARS else char]. *)
Definition escape_char (char : ascii) : string :=
  if Py.contains char SPECIAL_CHARS
  then String backslash (String char "")
  else String char "".

Definition escape_markdown (text : string) : string :=
  Py.join "" (map escape_char (Py.chars text)).

(** The escaping of the specification, phrased on the string itself: a
    reserved character is copied behind a backslash, any other character
    is copied as it is. *)
Fixpoint escape_spec (text : string) : string :=
  match text with
  | EmptyString => EmptyString
  | String c rest =>
      if Py.contains c SPECIAL_CHARS
      then String backslash (String c (escape_spec rest))
      else String c (escape_spec rest)
  end.

(** The inverse named by the specification: drop one backslash in front of
    each reserved character. *)
Fixpoint unescape_spec (text : string) : string :=
  match text with
  | EmptyString => EmptyString
  | String c rest =>
      match rest with
      | String d rest' =>
          if (Ascii.eqb c backslash && Py.contains d SPECIAL_CHARS)%bool
          then String d (unescape_spec rest')
          else String c (unescape_spec rest)
      | EmptyString => String c EmptyString
      end
  end.

(** Number of reserved characters of a string. *)
Fixpoint count_special (text : string) : nat :=
  match text with
  | EmptyString => 0
  | String c rest =>
      (if Py.contains c SPECIAL_CHARS then 1 else 0) + count_special rest
  end.

(** ** The instrument registry

    A Python [dict] keeps insertion order and assigning an existing key
    keeps that key's position, so the registry is an association list. *)

Module Dict.

Definition t : Type := list (string * string).

(** [d[k] = v]. *)
Fixpoint set (d : t) (k v : string) : t :=
  match d with
  | [] => [(k, v)]
  | (k', v') :: rest =>
      if String.eqb k' k then (k', v) :: rest else (k', v') :: set rest k v
  end.

(** [d.update(other)], also the meaning of a dict display or
    comprehension started from the empty dict. *)
Definition update (d : t) (other : list (string * string)) : t :=
  fold_left (fun acc kv => set acc (fst kv) (snd kv)) other d.

Definition of_pairs (kvs : list (string * string)) : t := update [] kvs.

(** [d.items()]. *)
Definition items (d : t) : list (string * string) := d.

Definition keys (d : t) : list string := map fst d.

End Dict.

Definition binance_entry (p : string * string) : string * string :=
  let '(inst, segm) := p in
  (inst ++ " (" ++ segm ++ ")",
   "Binance" ++ segm ++ "_" ++ inst ++ "_Binance_" ++ segm ++ "_PERPETUAL")%string.

Definition bitmex_entry (inst : string) : string * string :=
  (inst ++ " (Fut)", "BitMEX_" ++ inst ++ "_BitMEX_PERP")%string.

Definition crypto_entry (p : string * string) : string * string :=
  let '(inst, segm) := p in
  (inst ++ " (" ++ segm ++ ")",
   "Crypto_" ++ inst ++ "_Crypto_" ++ segm ++ "_"
     ++ (if String.eqb segm "Spt" then "SPOT" else "PERP"))%string.

Definition binance_symbols : Dict.t :=
  Dict.of_pairs
    [ ("ADAUSDT", "FutT"); ("BNBUSDT", "FutT"); ("BTCUSDT", "FutT");
      ("DOGEUSDT", "FutT"); ("ETHUSDT", "FutT"); ("FTMUSDT", "FutT");
      ("LINKUSDT", "FutT"); ("NEARUSDT", "FutT"); ("SOLUSDT", "FutT");
      ("XRPUSDT", "FutT"); ("WIFUSDT", "FutT"); ("NOTUSDT", "FutT");
      ("SUIUSDT", "FutT"); ("RAREUSDT", "FutT") ].

Definition bitmex_symbols : list string := [ "XBTUSDT"; "ETHUSDT"; "SOLUSDT" ].

Definition crypto_symbols : Dict.t :=
  Dict.of_pairs
    [ ("BTCUSD_PERP", "Fut"); ("ETHUSD_PERP", "Fut"); ("SOLUSD_PERP", "Fut");
      ("XRPUSD_PERP", "Fut"); ("BTC_USD", "Spt"); ("ETH_USD", "Spt");
      ("SOL_USD", "Spt"); ("XRP_USD", "Spt") ].

Definition instruments : Dict.t :=
  let d0 := Dict.of_pairs (map binance_entry (Dict.items binance_symbols)) in
  let d1 := Dict.update d0 (Dict.of_pairs (map bitmex_entry bitmex_symbols)) in
  Dict.update d1 (Dict.of_pairs (map crypto_entry (Dict.items crypto_symbols))).

(** ** Exceptions and observable effects *)

Inductive exn : Type :=
| TelegramError (message : string)
| CalledProcessError (returncode : Z)
| CancelledError
| IndexError
| TypeError
| OtherException (name : string)        (* any other subclass of Exception *)
| OtherBaseException (name : string).   (* KeyboardInterrupt, SystemExit *)

Definition is_TelegramError (e : exn) : bool :=
  match e with TelegramError _ => true | _ => false end.

Definition is_CalledProcessError (e : exn) : bool :=
  match e with CalledProcessError _ => true | _ => false end.

Definition is_CancelledError (e : exn) : bool :=
  match e with CancelledError => true | _ => false end.

(** [isinstance(e, Exception)]; [asyncio.CancelledError] derives from
    [BaseException] only. *)
Definition is_Exception (e : exn) : bool :=
  match e with
  | CancelledError | OtherBaseException _ => false
  | _ => true
  end.

(** The value of [query_df.iloc[0, 0]]: a pandas timestamp without time
    zone, one with a time zone, or [NaT] where the store has no value. *)
Inductive cell : Type :=
| Timestamp (ns : Z)
| TimestampTz (ns : Z)
| NaT.

(** A frame is its rows; [iloc[0, 0]] needs a first row with a first
    column and raises [IndexError] otherwise. *)
Definition DataFrame : Type := list (list cell).

Definition iloc00 (df : DataFrame) : exn + cell :=
  match df with
  | (value :: _) :: _ => inr value
  | _ => inl IndexError
  end.

(** [value < bound] for a bound without time zone, which
    [datetime.now() - pd.Timedelta(...)] is: two naive values are compared
    as instants, a timestamp with a time zone cannot be compared with a
    naive one and raises [TypeError], and every comparison with [NaT] is
    false. *)
Definition cell_lt (value : cell) (bound : Z) : exn + bool :=
  match value with
  | Timestamp ns => inr (ns <? bound)%Z
  | TimestampTz _ => inl TypeError
  | NaT => inr false
  end.

(** [pd.Timedelta(minutes=m)] in nanoseconds. *)
Definition Timedelta_minutes (m : Z) : Z := (m * 60 * 1000000000)%Z.

Inductive logmsg : Type :=
| MsgInitializing
| MsgInitialized (text : string)
| MsgInitError (e : exn)
| MsgStarting
| MsgTableValue (table : string) (value : cell)
| MsgScriptOk
| MsgScriptFailed (e : exn)
| MsgSleeping (sleep_time : float)
| MsgCancelled
| MsgUnexpected (e : exn).

Inductive event : Type :=
| LogInfo (msg : logmsg)
| LogError (msg : logmsg)
| BotNew
| GetMe
| QueryDf (query : string)
| SendMessage (text : string)
| SubprocessRun (args : list string)
| Sleep (delay : float).

Definition is_query (ev : event) : bool :=
  match ev with QueryDf _ => true | _ => false end.
Definition is_send (ev : event) : bool :=
  match ev with SendMessage _ => true | _ => false end.
Definition is_run (ev : event) : bool :=
  match ev with SubprocessRun _ => true | _ => false end.
Definition is_sleep (ev : event) : bool :=
  match ev with Sleep _ => true | _ => false end.
Definition is_bot_new (ev : event) : bool :=
  match ev with BotNew => true | _ => false end.
Definition is_get_me (ev : event) : bool :=
  match ev with GetMe => true | _ => false end.

Definition count (p : event -> bool) (tr : list event) : nat :=
  length (filter p tr).

(** ** A computation: the effects performed so far, and either the
    exception that ended it or its value *)

Definition M (A : Type) : Type := list event * (exn + A).

Definition ret {A} (a : A) : M A := ([], inr a).

Definition bind {A B} (m : M A) (k : A -> M B) : M B :=
  match m with
  | (tr, inl e) => (tr, inl e)
  | (tr, inr a) => (tr ++ fst (k a), snd (k a))
  end.

Definition emit (ev : event) : M unit := ([ev], inr tt).

(** A call to a collaborator: the call is observed, then it returns or
    raises. *)
Definition call {A} (ev : event) (result : exn + A) : M A := ([ev], result).

Definition lift {A} (result : exn + A) : M A := ([], result).

(** [try: body except E1 as e: h1(e) except E2 as e: h2(e)]: the first
    clause whose class matches runs; no match, the exception goes on. *)
Fixpoint find_handler {A} (e : exn)
    (clauses : list ((exn -> bool) * (exn -> M A))) : option (M A) :=
  match clauses with
  | [] => None
  | (matches, handler) :: rest =>
      if matches e then Some (handler e) else find_handler e rest
  end.

Definition try_except {A} (body : M A)
    (clauses : list ((exn -> bool) * (exn -> M A))) : M A :=
  match body with
  | (tr, inl e) =>
      match find_handler e clauses with
      | Some h => (tr ++ fst h, snd h)
      | None => (tr, inl e)
      end
  | (tr, inr a) => (tr, inr a)
  end.

Declare Scope monad_scope.
Delimit Scope monad_scope with monad.
Notation "x <- m ;; k" := (bind m (fun x => k))
  (at level 61, m at next level, right associativity) : monad_scope.
Notation "m ;; k" := (bind m (fun _ => k))
  (at level 61, right associativity) : monad_scope.
Local Open Scope monad_scope.

(** ** The collaborators during one cycle *)

Record Collaborators : Type := {
  (* client.query_df(query=...) *)
  query_df : string -> exn + DataFrame;
  (* datetime.now() as read in the loop iteration of the given instrument *)
  datetime_now : string -> Z;
  (* bot.send_message(chat_id=CHAT_ID, text=..., parse_mode="MarkdownV2") *)
  send_message : string -> exn + unit;
  (* the exit status of the child, unless it could not be run at all *)
  subprocess_returncode : list string -> exn + Z
}.

(** [subprocess.run(args=..., check=True)]. *)
Definition subprocess_run_check (env : Collaborators) (args : list string)
  : M unit :=
  call (SubprocessRun args)
    match subprocess_returncode env args with
    | inl e => inl e
    | inr returncode =>
        if (returncode =? 0)%Z then inr tt
        else inl (CalledProcessError returncode)
    end.

(** ** [alert_if_instrument_inactive] *)

Definition minutes : Z := 10.

(** [f"SELECT max(o_ts_exch) FROM {table}"]. *)
Definition select_max (table : string) : string :=
  ("SELECT max(o_ts_exch) FROM " ++ table)%string.

(** The body of the [for] loop up to [has_passed_minutes]. *)
Definition has_passed_minutes (env : Collaborators)
    (item : string * string) : M bool :=
  let '(instrument, table) := item in
  let query := select_max table in
  df <- call (QueryDf query) (query_df env query) ;;
  value <- lift (iloc00 df) ;;
  emit (LogInfo (MsgTableValue table value)) ;;
  let datetime_minutes_ago :=
    (datetime_now env instrument - Timedelta_minutes minutes)%Z in
  lift (cell_lt value datetime_minutes_ago).

(** The [for] loop, threading [failed_instruments]. *)
Fixpoint for_instruments (env : Collaborators)
    (items : list (string * string)) (failed_instruments : list string)
  : M (list string) :=
  match items with
  | [] => ret failed_instruments
  | item :: rest =>
      passed <- has_passed_minutes env item ;;
      for_instruments env rest
        (if passed then failed_instruments ++ [fst item]
         else failed_instruments)
  end.

(** U+26A0 U+FE0F in UTF-8. *)
Definition warning_sign : string :=
  String (ascii_of_nat 226) (String (ascii_of_nat 154)
  (String (ascii_of_nat 160) (String (ascii_of_nat 239)
  (String (ascii_of_nat 184) (String (ascii_of_nat 143) ""))))).

Definition alert_text (failed_instruments : list string) : string :=
  (warning_sign ++ " Alert: "
   ++ Py.str_of_nat (length failed_instruments) ++ " instruments "
   ++ Py.join ", "
        (map (fun failed_instrument =>
                "*" ++ escape_markdown failed_instrument ++ "*")
             failed_instruments)
   ++ " stopped updating")%string.

Definition restart_args : list string :=
  [ "bash"; "~/services_clickhouse/services_restart.sh" ].

(** The [if failed_instruments:] block. *)
Definition alert_and_restart (env : Collaborators)
    (failed_instruments : list string) : M unit :=
  match failed_instruments with
  | [] => ret tt
  | _ :: _ =>
      let text := alert_text failed_instruments in
      call (SendMessage text) (send_message env text) ;;
      try_except
        (subprocess_run_check env restart_args ;;
         emit (LogInfo MsgScriptOk))
        [ (is_CalledProcessError,
           fun e => emit (LogError (MsgScriptFailed e))) ]
  end.

Definition alert_if_instrument_inactive (env : Collaborators)
    (registry : Dict.t) : M unit :=
  failed_instruments <- for_instruments env (Dict.items registry) [] ;;
  alert_and_restart env failed_instruments.

(** ** [main]: start-up and the monitoring loop *)

Record World : Type := {
  (* Bot(token=TOKEN) *)
  bot_new : exn + unit;
  (* (await bot.get_me()).username *)
  get_me_username : exn + string;
  (* the start-up bot.send_message *)
  startup_send : string -> exn + unit;
  (* loop.time() as read at the start of pass k *)
  loop_time_start : nat -> float;
  (* the collaborators as they behave during pass k *)
  cycle : nat -> Collaborators;
  (* loop.time() as read after the cycle of pass k *)
  loop_time_end : nat -> float;
  (* await asyncio.sleep(delay) in pass k: it returns, or raises *)
  sleep : nat -> float -> exn + unit
}.

(** [loop.time()] when the loop is entered. *)
Definition loop_start (w : World) : float := loop_time_start w 0.

(** [60 * 10], an [int]; adding it to a [float] converts it exactly. *)
Definition seconds : float := 600%float.

(** [max(0, x)]: the first argument is kept unless the second is greater,
    so a NaN and a negative zero give 0.  The [int] 0 and the [float] 0
    are not told apart: both are false and neither is slept. *)
Definition max0 (x : float) : float := if (0 <? x)%float then x else 0%float.

(** Python truth of a number. *)
Definition truthy (x : float) : bool := negb (x =? 0)%float.

Definition next_run_time (start_time : float) : float :=
  (start_time + seconds)%float.

Definition sleep_time (start_time now : float) : float :=
  max0 (next_run_time start_time - now)%float.

(** One pass through the body of [while True]; the value is [loop.time()]
    as the next pass reads it when it starts. *)
Definition iteration (w : World) (registry : Dict.t) (k : nat)
    (start_time : float) : M float :=
  alert_if_instrument_inactive (cycle w k) registry ;;
  let now := loop_time_end w k in
  let delay := sleep_time start_time now in
  (if truthy delay then
     emit (LogInfo (MsgSleeping delay)) ;;
     call (Sleep delay) (sleep w k delay)
   else ret tt) ;;
  ret (loop_time_start w (S k)).

(** [while True], cut after [fuel] passes: the value is the number of the
    pass that would come next and the time at which it starts. *)
Fixpoint while_true (w : World) (registry : Dict.t) (fuel k : nat)
    (start_time : float) : M (nat * float) :=
  match fuel with
  | O => ret (k, start_time)
  | S fuel' =>
      t <- iteration w registry k start_time ;;
      while_true w registry fuel' (S k) t
  end.

(** How [main] is left. *)
Inductive outcome : Type :=
| InitFailed (e : exn)            (* except TelegramError: logged, return *)
| Cancelled                       (* except asyncio.CancelledError *)
| Unexpected (e : exn)            (* except Exception: logged *)
| StillRunning (k : nat) (t : float). (* the loop has not been left *)

(** The text of the start-up message. *)
Definition startup_text (username : string) : string :=
  ("Bot " ++ escape_markdown username ++ " initialized successfully")%string.

(** The first [try] statement; [None] when the bot is initialised. *)
Definition initialise (w : World) : M (option exn) :=
  try_except
    (username <- call GetMe (get_me_username w) ;;
     let text := startup_text username in
     emit (LogInfo (MsgInitialized text)) ;;
     call (SendMessage text) (startup_send w text) ;;
     ret None)
    [ (is_TelegramError,
       fun e => emit (LogError (MsgInitError e)) ;; ret (Some e)) ].

(** The second [try] statement. *)
Definition monitoring (w : World) (registry : Dict.t) (fuel : nat)
  : M outcome :=
  try_except
    (r <- while_true w registry fuel 0 (loop_start w) ;;
     ret (StillRunning (fst r) (snd r)))
    [ (is_CancelledError,
       fun _ => emit (LogInfo MsgCancelled) ;; ret Cancelled);
      (is_Exception,
       fun e => emit (LogError (MsgUnexpected e)) ;; ret (Unexpected e)) ].

Definition main (w : World) (registry : Dict.t) (fuel : nat) : M outcome :=
  emit (LogInfo MsgInitializing) ;;
  call BotNew (bot_new w) ;;
  failure <- initialise w ;;
  match failure with
  | Some e => ret (InitFailed e)
  | None =>
      emit (LogInfo MsgStarting) ;;
      monitoring w registry fuel
  end.

(** The states of the specification's scheduler, read off the way [main]
    is left: an exception that leaves [main] ends the process as well. *)
Inductive state : Type := Starting | Running | Stopped | Crashed.

Definition final_state (r : exn + outcome) : state :=
  match r with
  | inr (StillRunning _ _) => Running
  | inr Cancelled => Stopped
  | inr (InitFailed _) | inr (Unexpected _) | inl _ => Crashed
  end.

(** The label made of every reserved character, each exactly once. *)
Definition all_special : string := string_of_list_ascii SPECIAL_CHARS.

(** ** Vocabulary of the specification *)

(** The threshold the comparison of the loop body amounts to. *)
Definition threshold : Z := Timedelta_minutes minutes.

(** A staleness result, as the specification names it: the instrument's
    label and the flag computed by the loop body. *)
Record StalenessCheckResult : Type := {
  instrument : string;
  is_stale : bool
}.

(** [r] is what the loop body finds for [item] in [env]. *)
Definition evaluated (env : Collaborators) (item : string * string)
    (r : StalenessCheckResult) : Prop :=
  instrument r = fst item
  /\ snd (has_passed_minutes env item) = inr (is_stale r).

(** The channel is initialised and the start-up message is delivered. *)
Definition startup_ok (w : World) : bool :=
  match bot_new w, get_me_username w with
  | inr _, inr username =>
      match startup_send w (startup_text username) with
      | inr _ => true
      | inl _ => false
      end
  | _, _ => false
  end.

(** What a successful start-up leaves in the trace. *)
Definition startup_trace (username : string) : list event :=
  [ LogInfo MsgInitializing; BotNew; GetMe;
    LogInfo (MsgInitialized (startup_text username));
    SendMessage (startup_text username);
    LogInfo MsgStarting ].

(** ** Scenarios

    Small worlds on which the definitions above are run. *)

Definition demo_registry : Dict.t :=
  Dict.of_pairs [ ("X_1 (Fut)", "tX"); ("Y (Fut)", "tY"); ("Z (Spt)", "tZ") ].

Definition noon : Z := 1700000000000000000.

Definition fresh_frame : DataFrame := [[Timestamp (noon - Timedelta_minutes 1)]].
Definition old_frame : DataFrame := [[Timestamp (noon - Timedelta_minutes 15)]].

(** Every table fresh, except that the query on [tX] answers [x]. *)
Definition frames_with (x : exn + DataFrame) (query : string)
  : exn + DataFrame :=
  if String.eqb query (select_max "tX") then x else inr fresh_frame.

Definition env_of (frames : string -> exn + DataFrame) (send : exn + unit)
    (returncode : exn + Z) : Collaborators :=
  {| query_df := frames;
     datetime_now := fun _ => noon;
     send_message := fun _ => send;
     subprocess_returncode := fun _ => returncode |}.

(** The clock of the scenarios: a pass takes [d] seconds of work and the
    next one starts [seconds] after it started, or at once when the work
    took longer. *)
Definition float_of_nat (k : nat) : float :=
  PrimFloat.of_uint63 (Uint63.of_Z (Z.of_nat k)).

Definition clock_start (d : float) (k : nat) : float :=
  (float_of_nat k * (if (d <? seconds) then seconds else d))%float.

Definition clock_end (d : float) (k : nat) : float :=
  (clock_start d k + d)%float.

(** A world that starts up, has the same collaborators in every cycle,
    spends [d] seconds of work per cycle and is never interrupted in its
    sleep. *)
Definition world_of (env : Collaborators) (d : float) : World :=
  {| bot_new := inr tt;
     get_me_username := inr "alert_bot";
     startup_send := fun _ => inr tt;
     loop_time_start := clock_start d;
     cycle := fun _ => env;
     loop_time_end := clock_end d;
     sleep := fun _ _ => inr tt |}.

Definition env_fresh : Collaborators :=
  env_of (frames_with (inr fresh_frame)) (inr tt) (inr 0%Z).
Definition env_x_old : Collaborators :=
  env_of (frames_with (inr old_frame)) (inr tt) (inr 0%Z).
Definition env_x_missing : Collaborators :=
  env_of (frames_with (inr [[NaT]])) (inr tt) (inr 0%Z).
Definition env_x_no_rows : Collaborators :=
  env_of (frames_with (inr [])) (inr tt) (inr 0%Z).
Definition env_x_query_raises : Collaborators :=
  env_of (frames_with (inl (OtherException "DatabaseError"))) (inr tt) (inr 0%Z).
Definition env_send_raises : Collaborators :=
  env_of (frames_with (inr old_frame)) (inl (TelegramError "Timed out")) (inr 0%Z).
Definition env_restart_fails : Collaborators :=
  env_of (frames_with (inr old_frame)) (inr tt) (inr 127%Z).

(** Worlds in which the start-up fails. *)
Definition world_bad_token : World :=
  {| bot_new := inl (TelegramError "InvalidToken");
     get_me_username := inr "alert_bot";
     startup_send := fun _ => inr tt;
     loop_time_start := clock_start 5;
     cycle := fun _ => env_x_old;
     loop_time_end := clock_end 5;
     sleep := fun _ _ => inr tt |}.

Definition world_startup_send_fails : World :=
  {| bot_new := inr tt;
     get_me_username := inr "alert_bot";
     startup_send := fun _ => inl (TelegramError "Forbidden");
     loop_time_start := clock_start 5;
     cycle := fun _ => env_x_old;
     loop_time_end := clock_end 5;
     sleep := fun _ _ => inr tt |}.

Definition demo_results : list StalenessCheckResult :=
  [ {| instrument := "X_1 (Fut)"; is_stale := true |};
    {| instrument := "Y (Fut)"; is_stale := false |};
    {| instrument := "Z (Spt)"; is_stale := false |} ].

(** ** Further vocabulary *)

(** A text in which no reserved character stands bare: it reads, from the
    left, as plain characters and backslash-reserved pairs. *)
Fixpoint well_escaped (text : string) : bool :=
  match text with
  | EmptyString => true
  | String c rest =>
      if Ascii.eqb c backslash then
        match rest with
        | String d rest' =>
            (Py.contains d SPECIAL_CHARS && well_escaped rest')%bool
        | EmptyString => false
        end
      else (negb (Py.contains c SPECIAL_CHARS) && well_escaped rest)%bool
  end.

(** A text without any reserved character. *)
Fixpoint plain (text : string) : bool :=
  match text with
  | EmptyString => true
  | String c rest => (negb (Py.contains c SPECIAL_CHARS) && plain rest)%bool
  end.

(** The part of MarkdownV2 the bot's messages use: a backslash makes the
    reserved character after it literal, an asterisk opens or closes bold,
    any other bare reserved character is an error, and bold must be closed
    where the text ends. *)
Fixpoint markdown_v2 (bold : bool) (text : string) : bool :=
  match text with
  | EmptyString => negb bold
  | String c rest =>
      if Ascii.eqb c backslash then
        match rest with
        | String d rest' =>
            (Py.contains d SPECIAL_CHARS && markdown_v2 bold rest')%bool
        | EmptyString => false
        end
      else if Ascii.eqb c "*" then markdown_v2 (negb bold) rest
      else (negb (Py.contains c SPECIAL_CHARS) && markdown_v2 bold rest)%bool
  end.

(** The queries of a trace, in the order they were made. *)
Fixpoint queries (tr : list event) : list string :=
  match tr with
  | [] => []
  | QueryDf query :: rest => query :: queries rest
  | _ :: rest => queries rest
  end.

(** The queries of a whole pass over the registry. *)
Definition registry_queries (registry : Dict.t) : list string :=
  map (fun item => select_max (snd item)) (Dict.items registry).

(** How the second [try] statement of [main] ends on an exception. *)
Definition loop_exit (e : exn) : M outcome :=
  if is_CancelledError e then ([LogInfo MsgCancelled], inr Cancelled)
  else if is_Exception e
       then ([LogError (MsgUnexpected e)], inr (Unexpected e))
       else ([], inl e).

(** The same collaborators, read [dt] nanoseconds later. *)
Definition env_later (env : Collaborators) (dt : Z) : Collaborators :=
  {| query_df := query_df env;
     datetime_now := fun label => (datetime_now env label + dt)%Z;
     send_message := send_message env;
     subprocess_returncode := subprocess_returncode env |}.

(** The restart script cannot be started at all. *)
Definition env_script_missing : Collaborators :=
  env_of (frames_with (inr old_frame)) (inr tt)
         (inl (OtherException "FileNotFoundError")).

(** The first row of the frame of [tX] has no column. *)
Definition env_x_no_columns : Collaborators :=
  env_of (frames_with (inr [[]])) (inr tt) (inr 0%Z).

(** A world whose sleep is cancelled in pass [c]. *)
Definition world_cancelled_at (env : Collaborators) (d : float) (c : nat)
  : World :=
  {| bot_new := inr tt;
     get_me_username := inr "alert_bot";
     startup_send := fun _ => inr tt;
     loop_time_start := clock_start d;
     cycle := fun _ => env;
     loop_time_end := clock_end d;
     sleep := fun k _ =>
                if Nat.eqb k c then inl CancelledError else inr tt |}.

(** A world whose start-up calls raise as given. *)
Definition world_startup (new : exn + unit) (me : exn + string)
    (send : exn + unit) : World :=
  {| bot_new := new;
     get_me_username := me;
     startup_send := fun _ => send;
     loop_time_start := clock_start 5;
     cycle := fun _ => env_fresh;
     loop_time_end := clock_end 5;
     sleep := fun _ _ => inr tt |}.

(** The registry as [bot.py] builds it, for any three symbol tables:
    [instruments] is [instruments_of binance_symbols bitmex_symbols
    crypto_symbols]. *)
Definition instruments_of (binance : Dict.t) (bitmex : list string)
    (crypto : Dict.t) : Dict.t :=
  let d0 := Dict.of_pairs (map binance_entry (Dict.items binance)) in
  let d1 := Dict.update d0 (Dict.of_pairs (map bitmex_entry bitmex)) in
  Dict.update d1 (Dict.of_pairs (map crypto_entry (Dict.items crypto))).

(** The rational number a finite [float] stands for. *)
Definition exact (x : float) : option Q :=
  match Prim2SF x with
  | S754_zero _ => Some 0%Q
  | S754_finite s m e =>
      Some ((if s then -1 else 1) * inject_Z (Zpos m) * Qpower 2 e)%Q
  | _ => None
  end.



(** The newest row of [tX] carries a time zone. *)
Definition env_x_aware : Collaborators :=
  env_of (frames_with (inr [[TimestampTz noon]])) (inr tt) (inr 0%Z).

(** * Properties *)

(** ** Escaping *)

Section Escaping.

Local Open Scope string_scope.

Lemma append_empty_r (s : string) : s ++ "" = s.
Proof. induction s as [|c s IH]; simpl; [reflexivity | now rewrite IH]. Qed.

Lemma join_empty_cons (p : string) (parts : list string) :
  Py.join "" (p :: parts) = p ++ Py.join "" parts.
Proof.
  destruct parts as [|q parts]; simpl.
  - now rewrite append_empty_r.
  - reflexivity.
Qed.

Lemma escape_markdown_cons (c : ascii) (rest : string) :
  escape_markdown (String c rest) = escape_char c ++ escape_markdown rest.
Proof. unfold escape_markdown; simpl Py.chars; simpl map. apply join_empty_cons. Qed.

Lemma escape_markdown_spec (text : string) :
  escape_markdown text = escape_spec text.
Proof.
  induction text as [|c rest IH]; [reflexivity|].
  rewrite escape_markdown_cons, IH. unfold escape_char. simpl escape_spec.
  destruct (Py.contains c SPECIAL_CHARS); reflexivity.
Qed.

Lemma escape_spec_app (s1 s2 : string) :
  escape_spec (s1 ++ s2) = escape_spec s1 ++ escape_spec s2.
Proof.
  induction s1 as [|c s1 IH]; simpl; [reflexivity|].
  rewrite IH. destruct (Py.contains c SPECIAL_CHARS); reflexivity.
Qed.

Lemma backslash_special : Py.contains backslash SPECIAL_CHARS = true.
Proof. reflexivity. Qed.

Lemma not_special_not_backslash (c : ascii) :
  Py.contains c SPECIAL_CHARS = false -> Ascii.eqb c backslash = false.
Proof.
  intros H. destruct (Ascii.eqb c backslash) eqn:E; [|reflexivity].
  apply Ascii.eqb_eq in E. subst c. rewrite backslash_special in H. discriminate.
Qed.

Lemma unescape_spec_cons2 (c d : ascii) (rest : string) :
  unescape_spec (String c (String d rest))
  = if (Ascii.eqb c backslash && Py.contains d SPECIAL_CHARS)%bool
    then String d (unescape_spec rest)
    else String c (unescape_spec (String d rest)).
Proof. reflexivity. Qed.

Lemma unescape_escape_spec (text : string) :
  unescape_spec (escape_spec text) = text.
Proof.
  induction text as [|c rest IH]; [reflexivity|].
  simpl escape_spec. destruct (Py.contains c SPECIAL_CHARS) eqn:Hc.
  - rewrite unescape_spec_cons2, Ascii.eqb_refl, Hc.
    cbn [andb]. now rewrite IH.
  - pose proof (not_special_not_backslash c Hc) as Hb.
    destruct (escape_spec rest) as [|d rest'] eqn:Hr.
    + simpl in IH. now rewrite <- IH.
    + rewrite unescape_spec_cons2, Hb. cbn [andb].
      now rewrite IH.
Qed.

Lemma length_escape_spec (text : string) :
  String.length (escape_spec text)
  = (String.length text + count_special text)%nat.
Proof.
  induction text as [|c rest IH]; [reflexivity|].
  simpl. destruct (Py.contains c SPECIAL_CHARS); simpl; rewrite IH; lia.
Qed.

End Escaping.

(** C7: [escape_markdown] is the pure character mapping of the
    specification.  On every string it agrees with [escape_spec], which
    copies the text from left to right and puts one backslash in front of
    each character of [SPECIAL_CHARS] and nothing in front of any other;
    it maps a single character to itself, behind a backslash exactly when
    it is reserved; and it distributes over concatenation, so the order of
    the text is kept. *)
Theorem escape_markdown_pure_mapping :
  (forall text : string, escape_markdown text = escape_spec text)
  /\ (forall c : ascii,
        escape_markdown (String c "")
        = if Py.contains c SPECIAL_CHARS
          then String backslash (String c "") else String c "")
  /\ (forall s1 s2 : string,
        escape_markdown (s1 ++ s2)%string
        = (escape_markdown s1 ++ escape_markdown s2)%string).
Proof.
  split; [exact escape_markdown_spec|]. split.
  - intros c. rewrite escape_markdown_spec. simpl.
    destruct (Py.contains c SPECIAL_CHARS); reflexivity.
  - intros s1 s2. rewrite !escape_markdown_spec. apply escape_spec_app.
Qed.

(** C8: escaping is reversible.  Removing one backslash in front of each
    reserved character of [escape_markdown text] gives [text] back, for
    every [text]; the escaped string is longer than [text] by exactly the
    number of reserved characters in it (one escape per occurrence); and
    [escape_markdown] is injective. *)
Theorem escape_markdown_reversible :
  (forall text : string, unescape_spec (escape_markdown text) = text)
  /\ (forall text : string,
        String.length (escape_markdown text)
        = (String.length text + count_special text)%nat)
  /\ (forall s1 s2 : string,
        escape_markdown s1 = escape_markdown s2 -> s1 = s2).
Proof.
  split; [|split].
  - intros text. rewrite escape_markdown_spec. apply unescape_escape_spec.
  - intros text. rewrite escape_markdown_spec. apply length_escape_spec.
  - intros s1 s2 H.
    rewrite <- (unescape_escape_spec s1), <- (unescape_escape_spec s2).
    rewrite <- !escape_markdown_spec. now rewrite H.
Qed.

Lemma escape_markdown_reversible_witness :
  unescape_spec (escape_markdown all_special) = all_special
  /\ String.length (escape_markdown all_special) = 42%nat
  /\ (escape_markdown all_special = escape_markdown all_special ->
      all_special = all_special).
Proof.
  split; [|split].
  - apply (proj1 escape_markdown_reversible).
  - rewrite (proj1 (proj2 escape_markdown_reversible)). reflexivity.
  - apply (proj2 (proj2 escape_markdown_reversible)).
Defined.

(** ** The registry *)

Lemma Dict_set_keys_In (d : Dict.t) (k v x : string) :
  In x (Dict.keys (Dict.set d k v)) <-> x = k \/ In x (Dict.keys d).
Proof.
  induction d as [|[k' v'] d IH]; cbn [Dict.set Dict.keys map fst In].
  - intuition congruence.
  - destruct (String.eqb_spec k' k) as [->|Hne];
      cbn [Dict.keys map fst In]; [intuition congruence|].
    fold (Dict.keys (Dict.set d k v)). fold (Dict.keys d). rewrite IH. tauto.
Qed.

Lemma Dict_set_keys_NoDup (d : Dict.t) (k v : string) :
  NoDup (Dict.keys d) -> NoDup (Dict.keys (Dict.set d k v)).
Proof.
  induction d as [|[k' v'] d IH]; cbn [Dict.set Dict.keys map fst]; intros H.
  - constructor; [intros [] | constructor].
  - destruct (String.eqb_spec k' k) as [->|Hne]; [exact H|].
    cbn [map fst]. inversion H as [|? ? Hnotin Hd]; subst.
    constructor; [|now apply IH].
    fold (Dict.keys (Dict.set d k v)). rewrite Dict_set_keys_In.
    intros [Heq|Hin]; [congruence | now apply Hnotin].
Qed.

Lemma Dict_update_keys_NoDup (other : list (string * string)) :
  forall d : Dict.t,
    NoDup (Dict.keys d) -> NoDup (Dict.keys (Dict.update d other)).
Proof.
  unfold Dict.update.
  induction other as [|[k v] other IH]; intros d H; [exact H|].
  cbn [fold_left fst snd]. apply IH. now apply Dict_set_keys_NoDup.
Qed.

(** However the registry is filled, its labels are pairwise distinct;
    the one of [bot.py] has twenty-five of them. *)
Lemma instruments_labels_unique :
  NoDup (Dict.keys instruments) /\ length (Dict.items instruments) = 25%nat.
Proof.
  split; [|reflexivity].
  unfold instruments. cbv zeta.
  repeat apply Dict_update_keys_NoDup. constructor.
Qed.

(** ** Computations and traces *)

Section Computations.

Context {A B : Type}.

Lemma bind_inr (m : M A) (k : A -> M B) (a : A) :
  snd m = inr a -> bind m k = (fst m ++ fst (k a), snd (k a)).
Proof. destruct m as [tr [e|a']]; simpl; intros H; now inversion H. Qed.

Lemma bind_inl (m : M A) (k : A -> M B) (e : exn) :
  snd m = inl e -> bind m k = (fst m, inl e).
Proof. destruct m as [tr [e'|a]]; simpl; intros H; now inversion H. Qed.

End Computations.

Lemma count_app (p : event -> bool) (tr1 tr2 : list event) :
  count p (tr1 ++ tr2) = (count p tr1 + count p tr2)%nat.
Proof. unfold count. now rewrite filter_app, length_app. Qed.

Lemma count_zero_app (p : event -> bool) (tr1 tr2 : list event) :
  count p tr1 = 0%nat -> count p tr2 = 0%nat -> count p (tr1 ++ tr2) = 0%nat.
Proof. intros H1 H2. rewrite count_app. lia. Qed.

(** Case analysis on the computation bound first. *)
Ltac bind_cases m e a E :=
  destruct m as [? [e|a]] eqn:E;
  [ rewrite (bind_inl _ _ e) by (rewrite ?E; reflexivity)
  | rewrite (bind_inr _ _ a) by (rewrite ?E; reflexivity) ];
  cbn [fst snd].

(** ** One instrument *)

Lemma has_passed_minutes_eq (env : Collaborators) (instrument table : string) :
  has_passed_minutes env (instrument, table)
  = match query_df env (select_max table) with
    | inl e => ([QueryDf (select_max table)], inl e)
    | inr df =>
        match iloc00 df with
        | inl e => ([QueryDf (select_max table)], inl e)
        | inr value =>
            ([QueryDf (select_max table); LogInfo (MsgTableValue table value)],
             cell_lt value (datetime_now env instrument - threshold))
        end
    end.
Proof.
  unfold has_passed_minutes, call, lift, emit, ret, bind, threshold.
  destruct (query_df env (select_max table)) as [e|df]; [reflexivity|].
  destruct (iloc00 df) as [e|value]; [reflexivity|].
  cbn. now destruct (cell_lt value _).
Qed.

Lemma has_passed_minutes_quiet (env : Collaborators) (item : string * string)
    (p : event -> bool) :
  (forall q, p (QueryDf q) = false) -> (forall m, p (LogInfo m) = false) ->
  count p (fst (has_passed_minutes env item)) = 0%nat.
Proof.
  intros Hq Hl. destruct item as [instrument table].
  rewrite has_passed_minutes_eq.
  destruct (query_df env (select_max table)) as [e|df];
    [|destruct (iloc00 df) as [e|value]];
    unfold count; simpl; rewrite ?Hq, ?Hl; reflexivity.
Qed.

Lemma has_passed_minutes_one_query (env : Collaborators) (item : string * string) :
  count is_query (fst (has_passed_minutes env item)) = 1%nat.
Proof.
  destruct item as [instrument table]. rewrite has_passed_minutes_eq.
  destruct (query_df env (select_max table)) as [e|df];
    [|destruct (iloc00 df) as [e|value]]; reflexivity.
Qed.

(** ** The loop over the registry *)

Lemma for_instruments_cons (env : Collaborators) (item : string * string)
    (rest : list (string * string)) (acc : list string) :
  for_instruments env (item :: rest) acc
  = bind (has_passed_minutes env item)
      (fun passed =>
         for_instruments env rest
           (if passed then acc ++ [fst item] else acc)).
Proof. reflexivity. Qed.

Lemma for_instruments_quiet (env : Collaborators) (p : event -> bool)
    (items : list (string * string)) :
  (forall q, p (QueryDf q) = false) -> (forall m, p (LogInfo m) = false) ->
  forall acc, count p (fst (for_instruments env items acc)) = 0%nat.
Proof.
  intros Hq Hl. induction items as [|item rest IH]; intros acc; [reflexivity|].
  rewrite for_instruments_cons.
  pose proof (has_passed_minutes_quiet env item p Hq Hl) as H1.
  bind_cases (has_passed_minutes env item) e passed E.
  - exact H1.
  - apply count_zero_app; [exact H1 | apply IH].
Qed.

Lemma for_instruments_results (env : Collaborators)
    (items : list (string * string)) (results : list StalenessCheckResult) :
  Forall2 (evaluated env) items results ->
  forall acc,
    snd (for_instruments env items acc)
    = inr (acc ++ map instrument (filter is_stale results)).
Proof.
  induction 1 as [|item r items results [Hi Hr] _ IH]; intros acc.
  - simpl. now rewrite app_nil_r.
  - rewrite for_instruments_cons, (bind_inr _ _ _ Hr). cbn [snd].
    rewrite IH. cbn [filter]. destruct (is_stale r); [|reflexivity].
    cbn [map]. rewrite Hi, <- app_assoc. reflexivity.
Qed.

(** The loop stops at the first instrument whose body raises. *)
Lemma for_instruments_raises (env : Collaborators)
    (before : list (string * string)) (results : list StalenessCheckResult)
    (item : string * string) (after : list (string * string)) (e : exn) :
  Forall2 (evaluated env) before results ->
  snd (has_passed_minutes env item) = inl e ->
  forall acc,
    snd (for_instruments env (before ++ item :: after) acc) = inl e
    /\ count is_query (fst (for_instruments env (before ++ item :: after) acc))
       = S (length before).
Proof.
  intros Hb He. induction Hb as [|b r before results [Hi Hr] _ IH]; intros acc.
  - cbn [app]. rewrite for_instruments_cons, (bind_inl _ _ _ He). cbn [fst snd].
    split; [reflexivity | apply has_passed_minutes_one_query].
  - cbn [app]. rewrite for_instruments_cons, (bind_inr _ _ _ Hr). cbn [fst snd].
    destruct (IH (if is_stale r then acc ++ [fst b] else acc)) as [IH1 IH2].
    split; [exact IH1|].
    rewrite count_app, has_passed_minutes_one_query, IH2. reflexivity.
Qed.

(** ** The alert and the restart script *)

Lemma alert_and_restart_eq (env : Collaborators) (failed : list string) :
  failed <> [] ->
  alert_and_restart env failed
  = let text := alert_text failed in
    match send_message env text with
    | inl e => ([SendMessage text], inl e)
    | inr _ =>
        match subprocess_returncode env restart_args with
        | inl e =>
            if is_CalledProcessError e
            then ([SendMessage text; SubprocessRun restart_args;
                   LogError (MsgScriptFailed e)], inr tt)
            else ([SendMessage text; SubprocessRun restart_args], inl e)
        | inr returncode =>
            if (returncode =? 0)%Z
            then ([SendMessage text; SubprocessRun restart_args;
                   LogInfo MsgScriptOk], inr tt)
            else ([SendMessage text; SubprocessRun restart_args;
                   LogError (MsgScriptFailed (CalledProcessError returncode))],
                  inr tt)
        end
    end.
Proof.
  intros Hne. destruct failed as [|f failed]; [congruence|].
  unfold alert_and_restart, subprocess_run_check, call, emit, ret.
  cbv zeta. destruct (send_message env (alert_text (f :: failed))) as [e|[]];
    [reflexivity|].
  destruct (subprocess_returncode env restart_args) as [e|returncode].
  - destruct e; reflexivity.
  - destruct (returncode =? 0)%Z; reflexivity.
Qed.

Lemma alert_and_restart_sends (env : Collaborators) (failed : list string) :
  count is_send (fst (alert_and_restart env failed))
  = match failed with [] => 0%nat | _ :: _ => 1%nat end.
Proof.
  destruct failed as [|f failed]; [reflexivity|].
  rewrite alert_and_restart_eq by discriminate. cbv zeta.
  destruct (send_message env _) as [e|[]]; [reflexivity|].
  destruct (subprocess_returncode env restart_args) as [e|returncode].
  - destruct (is_CalledProcessError e); reflexivity.
  - destruct (returncode =? 0)%Z; reflexivity.
Qed.

(** The script is run when, and only when, there is a failed instrument
    and the alert was sent. *)
Lemma alert_and_restart_runs (env : Collaborators) (failed : list string) :
  count is_run (fst (alert_and_restart env failed))
  = match failed with
    | [] => 0%nat
    | _ :: _ =>
        match send_message env (alert_text failed) with
        | inl _ => 0%nat
        | inr _ => 1%nat
        end
    end.
Proof.
  destruct failed as [|f failed]; [reflexivity|].
  rewrite alert_and_restart_eq by discriminate. cbv zeta.
  destruct (send_message env _) as [e|[]]; [reflexivity|].
  destruct (subprocess_returncode env restart_args) as [e|returncode].
  - destruct (is_CalledProcessError e); reflexivity.
  - destruct (returncode =? 0)%Z; reflexivity.
Qed.

Lemma cycle_eq (env : Collaborators) (registry : Dict.t) :
  alert_if_instrument_inactive env registry
  = bind (for_instruments env (Dict.items registry) [])
         (alert_and_restart env).
Proof. reflexivity. Qed.

Lemma cycle_scanned (env : Collaborators) (registry : Dict.t)
    (failed : list string) :
  snd (for_instruments env (Dict.items registry) []) = inr failed ->
  alert_if_instrument_inactive env registry
  = (fst (for_instruments env (Dict.items registry) [])
       ++ fst (alert_and_restart env failed),
     snd (alert_and_restart env failed)).
Proof. intros H. rewrite cycle_eq. now apply bind_inr. Qed.

Lemma cycle_scan_raises (env : Collaborators) (registry : Dict.t) (e : exn) :
  snd (for_instruments env (Dict.items registry) []) = inl e ->
  alert_if_instrument_inactive env registry
  = (fst (for_instruments env (Dict.items registry) []), inl e).
Proof. intros H. rewrite cycle_eq. now apply bind_inl. Qed.

Lemma cycle_count (env : Collaborators) (registry : Dict.t)
    (p : event -> bool) (failed : list string) :
  (forall q, p (QueryDf q) = false) -> (forall m, p (LogInfo m) = false) ->
  snd (for_instruments env (Dict.items registry) []) = inr failed ->
  count p (fst (alert_if_instrument_inactive env registry))
  = count p (fst (alert_and_restart env failed)).
Proof.
  intros Hq Hl H. rewrite (cycle_scanned _ _ _ H). cbn [fst].
  rewrite count_app, (for_instruments_quiet env p _ Hq Hl). reflexivity.
Qed.

(** ** Staleness of one instrument *)

(** What the loop body finds, by kind of the frame's first cell: for a
    timestamp without time zone the instrument is stale exactly when
    [now - last_update] is strictly greater than the ten minute threshold;
    for the missing value [NaT] the comparison is false and the instrument
    is not stale; for a timestamp with a time zone the comparison raises
    [TypeError]. *)
Theorem staleness_of_last_update (env : Collaborators)
    (instrument table : string) (value : cell) (row : list cell)
    (rows : DataFrame) :
  query_df env (select_max table) = inr ((value :: row) :: rows) ->
  snd (has_passed_minutes env (instrument, table))
  = match value with
    | Timestamp last_update =>
        inr (datetime_now env instrument - last_update >? threshold)%Z
    | TimestampTz _ => inl TypeError
    | NaT => inr false
    end.
Proof.
  intros Hq. rewrite has_passed_minutes_eq, Hq. cbn [iloc00 snd].
  destruct value as [last_update|ns|]; cbn [cell_lt]; [|reflexivity..].
  f_equal. rewrite Z.gtb_ltb.
  destruct (Z.ltb_spec last_update (datetime_now env instrument - threshold));
    destruct (Z.ltb_spec threshold (datetime_now env instrument - last_update));
    (reflexivity || lia).
Qed.

Lemma staleness_of_last_update_witness :
  query_df env_x_old (select_max "tX") = inr old_frame
  /\ snd (has_passed_minutes env_x_old ("X_1 (Fut)", "tX")) = inr true.
Proof.
  split; [reflexivity|].
  exact (staleness_of_last_update env_x_old "X_1 (Fut)" "tX"
           (Timestamp (noon - Timedelta_minutes 15)) [] [] eq_refl).
Defined.

(** C1 is not met by the code where the last update is absent, although
    the docstring of [alert_if_instrument_inactive] promises an alert for
    an instrument that has not been updated.  With [NaT] in the first
    cell the loop body answers "not stale" and the cycle sends nothing;
    with a frame of no rows [iloc[0, 0]] raises [IndexError] and there is
    no staleness result at all. *)
Lemma missing_last_update_is_not_stale :
  query_df env_x_missing (select_max "tX") = inr [[NaT]]
  /\ snd (has_passed_minutes env_x_missing ("X_1 (Fut)", "tX")) = inr false
  /\ count is_send (fst (alert_if_instrument_inactive env_x_missing demo_registry))
     = 0%nat
  /\ query_df env_x_no_rows (select_max "tX") = inr []
  /\ snd (has_passed_minutes env_x_no_rows ("X_1 (Fut)", "tX")) = inl IndexError.
Proof. repeat split; reflexivity. Qed.

(** ** The report of a cycle *)

Lemma stale_labels_nil (results : list StalenessCheckResult) :
  map instrument (filter is_stale results) = []
  <-> (forall r, In r results -> is_stale r = false).
Proof.
  split.
  - intros H r Hr. destruct (is_stale r) eqn:E; [|reflexivity].
    assert (Hin : In (instrument r) (map instrument (filter is_stale results))).
    { apply in_map, filter_In. split; assumption. }
    rewrite H in Hin. destruct Hin.
  - intros H. induction results as [|r results IH]; [reflexivity|].
    cbn [filter]. rewrite (H r (or_introl eq_refl)).
    apply IH. intros r' Hr'. apply H. now right.
Qed.

(** C4: let [results] be the staleness results of the registry's
    instruments, in registry order.  The loop's [failed_instruments] is
    the labels of the stale results, in that order, so its length is the
    number of stale results; it is empty exactly when no result is stale;
    and the cycle sends no message exactly when no result is stale, and
    one message, the alert built from [failed_instruments], otherwise. *)
Theorem report_is_stale_instruments (env : Collaborators) (registry : Dict.t)
    (results : list StalenessCheckResult) :
  Forall2 (evaluated env) (Dict.items registry) results ->
  let failing := map instrument (filter is_stale results) in
  let tr := fst (alert_if_instrument_inactive env registry) in
  snd (for_instruments env (Dict.items registry) []) = inr failing
  /\ length failing = length (filter is_stale results)
  /\ (failing = [] <-> (forall r, In r results -> is_stale r = false))
  /\ (count is_send tr = 0%nat
      <-> (forall r, In r results -> is_stale r = false))
  /\ (failing <> [] ->
      count is_send tr = 1%nat /\ In (SendMessage (alert_text failing)) tr).
Proof.
  intros Hres failing tr.
  pose proof (for_instruments_results env _ _ Hres []) as Hscan.
  cbn [app] in Hscan. fold failing in Hscan.
  assert (Hsend : count is_send tr
                  = match failing with [] => 0%nat | _ :: _ => 1%nat end).
  { unfold tr. rewrite (cycle_count env registry is_send failing);
      [apply alert_and_restart_sends | reflexivity | reflexivity | exact Hscan]. }
  split; [exact Hscan|]. split; [apply length_map|].
  split; [apply stale_labels_nil|]. split.
  - rewrite Hsend, <- stale_labels_nil. fold failing.
    destruct failing; split; intros H; (reflexivity || discriminate).
  - intros Hne. split.
    + rewrite Hsend. destruct failing; [congruence | reflexivity].
    + unfold tr. rewrite (cycle_scanned _ _ _ Hscan). cbn [fst].
      apply in_or_app. right. rewrite alert_and_restart_eq by exact Hne.
      cbv zeta. destruct (send_message env (alert_text failing)) as [e|[]];
        [now left|].
      destruct (subprocess_returncode env restart_args) as [e|returncode];
        [destruct (is_CalledProcessError e) | destruct (returncode =? 0)%Z];
        now left.
Qed.

Lemma report_is_stale_instruments_witness :
  Forall2 (evaluated env_x_old) (Dict.items demo_registry) demo_results
  /\ snd (for_instruments env_x_old (Dict.items demo_registry) [])
     = inr ["X_1 (Fut)"].
Proof.
  assert (H : Forall2 (evaluated env_x_old) (Dict.items demo_registry)
                demo_results).
  { repeat constructor. }
  split; [exact H|].
  exact (proj1 (report_is_stale_instruments env_x_old demo_registry
                  demo_results H)).
Defined.

(** ** One pass of the loop *)

Lemma iteration_eq (w : World) (registry : Dict.t) (k : nat) (t0 : float) :
  snd (alert_if_instrument_inactive (cycle w k) registry) = inr tt ->
  iteration w registry k t0
  = let now := loop_time_end w k in
    let delay := sleep_time t0 now in
    (fst (alert_if_instrument_inactive (cycle w k) registry)
       ++ (if truthy delay
           then [LogInfo (MsgSleeping delay); Sleep delay] else []),
     if truthy delay
     then match sleep w k delay with
          | inl e => inl e
          | inr _ => inr (loop_time_start w (S k))
          end
     else inr (loop_time_start w (S k))).
Proof.
  intros H. unfold iteration. rewrite (bind_inr _ _ tt H). cbv zeta.
  destruct (truthy (sleep_time t0 (loop_time_end w k))).
  - unfold emit, call, ret, bind.
    destruct (sleep w k (sleep_time t0 (loop_time_end w k))) as [e|[]];
      cbn; rewrite ?app_nil_r; reflexivity.
  - reflexivity.
Qed.

Lemma iteration_raises (w : World) (registry : Dict.t) (k : nat) (t0 : float)
    (e : exn) :
  snd (alert_if_instrument_inactive (cycle w k) registry) = inl e ->
  iteration w registry k t0
  = (fst (alert_if_instrument_inactive (cycle w k) registry), inl e).
Proof. intros H. unfold iteration. now apply bind_inl. Qed.

Lemma while_true_S (w : World) (registry : Dict.t) (fuel k : nat) (t : float) :
  while_true w registry (S fuel) k t
  = bind (iteration w registry k t)
         (fun t' => while_true w registry fuel (S k) t').
Proof. reflexivity. Qed.

Lemma while_true_one (w : World) (registry : Dict.t) (k : nat) (t0 t1 : float) :
  snd (iteration w registry k t0) = inr t1 ->
  snd (while_true w registry 1 k t0) = inr (S k, t1).
Proof. intros H. rewrite while_true_S, (bind_inr _ _ t1 H). reflexivity. Qed.

(** Running [n + m] passes is running [n] and then [m] more. *)
Lemma while_true_add (w : World) (registry : Dict.t) (m : nat) :
  forall (n k : nat) (t : float) (k' : nat) (t' : float),
    snd (while_true w registry n k t) = inr (k', t') ->
    while_true w registry (n + m) k t
    = (fst (while_true w registry n k t) ++ fst (while_true w registry m k' t'),
       snd (while_true w registry m k' t')).
Proof.
  induction n as [|n IH]; intros k t k' t' H.
  - cbn in H. inversion H; subst. cbn [Nat.add while_true ret fst app].
    now destruct (while_true w registry m k' t').
  - cbn [Nat.add]. rewrite while_true_S in H. rewrite !while_true_S.
    destruct (iteration w registry k t) as [tr [e|t1]] eqn:E;
      cbn [bind fst snd] in *; [discriminate|].
    rewrite (IH _ _ _ _ H). cbn [fst snd]. now rewrite app_assoc.
Qed.

(** The pass in which the cycle raises is the last one, whatever the
    number of passes still allowed. *)
Lemma while_true_cycle_raises (w : World) (registry : Dict.t)
    (n k : nat) (t : float) (e : exn) (m : nat) :
  snd (while_true w registry n 0 (loop_start w)) = inr (k, t) ->
  snd (alert_if_instrument_inactive (cycle w k) registry) = inl e ->
  while_true w registry (n + S m) 0 (loop_start w)
  = (fst (while_true w registry n 0 (loop_start w))
       ++ fst (alert_if_instrument_inactive (cycle w k) registry),
     inl e).
Proof.
  intros Hn He. rewrite (while_true_add _ _ _ _ _ _ _ _ Hn).
  rewrite while_true_S, (bind_inl _ _ e);
    rewrite (iteration_raises _ _ _ _ _ He); reflexivity.
Qed.

(** ** [main] *)

Lemma Exception_not_Cancelled (e : exn) :
  is_Exception e = true -> is_CancelledError e = false.
Proof. destruct e; (reflexivity || discriminate). Qed.

Lemma monitoring_raises (w : World) (registry : Dict.t) (fuel : nat) (e : exn) :
  snd (while_true w registry fuel 0 (loop_start w)) = inl e ->
  monitoring w registry fuel
  = let tr := fst (while_true w registry fuel 0 (loop_start w)) in
    if is_CancelledError e then (tr ++ [LogInfo MsgCancelled], inr Cancelled)
    else if is_Exception e
         then (tr ++ [LogError (MsgUnexpected e)], inr (Unexpected e))
         else (tr, inl e).
Proof.
  intros H. unfold monitoring. rewrite (bind_inl _ _ e H).
  cbn [try_except find_handler]. cbv zeta.
  destruct (is_CancelledError e); [reflexivity|].
  destruct (is_Exception e); reflexivity.
Qed.

Lemma monitoring_running (w : World) (registry : Dict.t) (fuel k : nat) (t : float) :
  snd (while_true w registry fuel 0 (loop_start w)) = inr (k, t) ->
  monitoring w registry fuel
  = (fst (while_true w registry fuel 0 (loop_start w)), inr (StillRunning k t)).
Proof.
  intros H. unfold monitoring. rewrite (bind_inr _ _ (k, t) H).
  cbn [try_except ret fst snd]. now rewrite app_nil_r.
Qed.

Lemma main_started (w : World) (registry : Dict.t) (fuel : nat) :
  startup_ok w = true ->
  exists username,
    get_me_username w = inr username
    /\ main w registry fuel
       = (startup_trace username ++ fst (monitoring w registry fuel),
          snd (monitoring w registry fuel)).
Proof.
  unfold startup_ok, main, initialise. intros H.
  destruct (bot_new w) as [e|[]]; [discriminate|].
  destruct (get_me_username w) as [e|username]; [discriminate|].
  destruct (startup_send w (startup_text username)) as [e|[]] eqn:Hs;
    [discriminate|].
  exists username. split; [reflexivity|].
  unfold emit, call, ret, bind, try_except. cbv zeta. rewrite Hs.
  cbn [fst snd app]. now destruct (monitoring w registry fuel).
Qed.

(** Once a cycle raises an [Exception], [main] logs it and returns; more
    fuel changes nothing. *)
Lemma main_cycle_raises (w : World) (registry : Dict.t) (n k : nat) (t : float)
    (e : exn) :
  startup_ok w = true ->
  snd (while_true w registry n 0 (loop_start w)) = inr (k, t) ->
  snd (alert_if_instrument_inactive (cycle w k) registry) = inl e ->
  is_Exception e = true ->
  exists username,
    forall m,
      main w registry (n + S m)
      = (startup_trace username
           ++ (fst (while_true w registry n 0 (loop_start w))
                 ++ fst (alert_if_instrument_inactive (cycle w k) registry))
           ++ [LogError (MsgUnexpected e)],
         inr (Unexpected e)).
Proof.
  intros Hs Hn He Hx.
  destruct (main_started w registry 0 Hs) as [username [Hu _]].
  exists username. intros m.
  destruct (main_started w registry (n + S m) Hs) as [u' [Hu' Hm]].
  assert (u' = username) by congruence. subst u'.
  rewrite Hm.
  pose proof (while_true_cycle_raises w registry n k t e m Hn He) as Hw.
  rewrite (monitoring_raises w registry (n + S m) e) by now rewrite Hw.
  cbv zeta. rewrite (Exception_not_Cancelled e Hx), Hx, Hw. reflexivity.
Qed.

(** After a pass that returns, [main] is still in its loop. *)
Lemma main_pass_completes (w : World) (registry : Dict.t) (n k : nat)
    (t t1 : float) :
  startup_ok w = true ->
  snd (while_true w registry n 0 (loop_start w)) = inr (k, t) ->
  snd (iteration w registry k t) = inr t1 ->
  snd (main w registry (n + 1)) = inr (StillRunning (S k) t1).
Proof.
  intros Hs Hn Hi.
  destruct (main_started w registry (n + 1) Hs) as [username [_ Hm]].
  rewrite Hm. cbn [snd].
  rewrite (monitoring_running w registry (n + 1) (S k) t1); [reflexivity|].
  rewrite (while_true_add _ _ _ _ _ _ _ _ Hn). cbn [snd].
  now apply while_true_one.
Qed.

(** ** The restart script *)

(** C10: in a cycle with failed instruments, if sending the alert raises,
    the exception leaves [alert_if_instrument_inactive] and the script is
    not run.  And whenever the script is run in a cycle, the alert was
    sent first, its send returned, and the script call is the very next
    effect. *)
Theorem failed_send_skips_restart :
  (forall (env : Collaborators) (registry : Dict.t) (failed : list string)
          (e : exn),
      snd (for_instruments env (Dict.items registry) []) = inr failed ->
      failed <> [] ->
      send_message env (alert_text failed) = inl e ->
      snd (alert_if_instrument_inactive env registry) = inl e
      /\ count is_run (fst (alert_if_instrument_inactive env registry)) = 0%nat)
  /\ (forall (env : Collaborators) (registry : Dict.t),
        count is_run (fst (alert_if_instrument_inactive env registry)) <> 0%nat ->
        exists failed pre post,
          snd (for_instruments env (Dict.items registry) []) = inr failed
          /\ send_message env (alert_text failed) = inr tt
          /\ fst (alert_if_instrument_inactive env registry)
             = pre ++ SendMessage (alert_text failed)
                     :: SubprocessRun restart_args :: post
          /\ count is_run pre = 0%nat
          /\ count is_run post = 0%nat).
Proof.
  split.
  - intros env registry failed e Hscan Hne Hsend.
    rewrite (cycle_scanned _ _ _ Hscan). cbn [fst snd].
    rewrite count_app, (for_instruments_quiet env is_run) by reflexivity.
    rewrite alert_and_restart_eq by exact Hne. cbv zeta. rewrite Hsend.
    split; reflexivity.
  - intros env registry Hrun.
    destruct (snd (for_instruments env (Dict.items registry) [])) as [e|failed]
      eqn:Hscan.
    + rewrite (cycle_scan_raises _ _ _ Hscan) in Hrun. cbn [fst] in Hrun.
      rewrite (for_instruments_quiet env is_run) in Hrun by reflexivity.
      congruence.
    + rewrite (cycle_count env registry is_run failed) in Hrun
        by (reflexivity || exact Hscan).
      rewrite alert_and_restart_runs in Hrun.
      destruct failed as [|f failed]; [congruence|].
      destruct (send_message env (alert_text (f :: failed))) as [e|[]] eqn:Hsend;
        [congruence|].
      exists (f :: failed), (fst (for_instruments env (Dict.items registry) [])).
      rewrite (cycle_scanned _ _ _ Hscan). cbn [fst].
      rewrite alert_and_restart_eq by discriminate. cbv zeta. rewrite Hsend.
      pose proof (for_instruments_quiet env is_run (Dict.items registry)
                    (fun _ => eq_refl) (fun _ => eq_refl) []) as Hpre.
      destruct (subprocess_returncode env restart_args) as [e|returncode];
        [destruct (is_CalledProcessError e) | destruct (returncode =? 0)%Z];
        eexists;
        (split; [reflexivity|]); (split; [reflexivity|]);
        (split; [reflexivity|]); (split; [exact Hpre | reflexivity]).
Qed.

Lemma failed_send_skips_restart_witness :
  (snd (for_instruments env_send_raises (Dict.items demo_registry) [])
   = inr ["X_1 (Fut)"]
   /\ count is_run (fst (alert_if_instrument_inactive env_send_raises demo_registry))
      = 0%nat)
  /\ (count is_run (fst (alert_if_instrument_inactive env_x_old demo_registry))
      <> 0%nat
      /\ exists failed pre post,
          snd (for_instruments env_x_old (Dict.items demo_registry) [])
          = inr failed
          /\ send_message env_x_old (alert_text failed) = inr tt
          /\ fst (alert_if_instrument_inactive env_x_old demo_registry)
             = pre ++ SendMessage (alert_text failed)
                     :: SubprocessRun restart_args :: post
          /\ count is_run pre = 0%nat
          /\ count is_run post = 0%nat).
Proof.
  split.
  - split; [reflexivity|].
    refine (proj2 (proj1 failed_send_skips_restart env_send_raises demo_registry
                     ["X_1 (Fut)"] (TelegramError "Timed out") _ _ _));
      [reflexivity | discriminate | reflexivity].
  - assert (H : count is_run
                  (fst (alert_if_instrument_inactive env_x_old demo_registry))
                <> 0%nat) by (vm_compute; discriminate).
    split; [exact H|].
    exact (proj2 failed_send_skips_restart env_x_old demo_registry H).
Defined.

(** C6: the script is run at most once in a cycle, and only in a cycle
    whose [failed_instruments] is not empty.  When it exits with a
    non-zero status, the cycle logs the error and returns normally with
    one alert sent and one run of the script; the pass then goes on to
    the sleep computed from its own start time, as after any other
    cycle, and unless that sleep is itself interrupted [main] is still in
    its loop afterwards, the next pass starting at the clock's next
    reading. *)
Theorem restart_once_and_failure_logged :
  (forall (env : Collaborators) (registry : Dict.t),
      (count is_run (fst (alert_if_instrument_inactive env registry)) <= 1)%nat)
  /\ (forall (env : Collaborators) (registry : Dict.t),
        count is_run (fst (alert_if_instrument_inactive env registry)) <> 0%nat ->
        exists failed,
          snd (for_instruments env (Dict.items registry) []) = inr failed
          /\ failed <> [])
  /\ (forall (w : World) (registry : Dict.t) (k : nat) (t0 : float)
             (failed : list string) (returncode : Z),
        snd (for_instruments (cycle w k) (Dict.items registry) []) = inr failed ->
        failed <> [] ->
        send_message (cycle w k) (alert_text failed) = inr tt ->
        subprocess_returncode (cycle w k) restart_args = inr returncode ->
        returncode <> 0%Z ->
        let now := loop_time_end w k in
        let delay := max0 ((t0 + seconds) - now)%float in
        alert_if_instrument_inactive (cycle w k) registry
        = (fst (for_instruments (cycle w k) (Dict.items registry) [])
             ++ [ SendMessage (alert_text failed);
                  SubprocessRun restart_args;
                  LogError (MsgScriptFailed (CalledProcessError returncode)) ],
           inr tt)
        /\ count is_run (fst (iteration w registry k t0)) = 1%nat
        /\ count is_send (fst (iteration w registry k t0)) = 1%nat
        /\ snd (iteration w registry k t0)
           = (if truthy delay
              then match sleep w k delay with
                   | inl e => inl e
                   | inr _ => inr (loop_time_start w (S k))
                   end
              else inr (loop_time_start w (S k)))
        /\ (forall n,
              startup_ok w = true ->
              snd (while_true w registry n 0 (loop_start w)) = inr (k, t0) ->
              (truthy delay = true -> sleep w k delay = inr tt) ->
              final_state (snd (main w registry (n + 1))) = Running)).
Proof.
  split; [|split].
  - intros env registry.
    destruct (snd (for_instruments env (Dict.items registry) [])) as [e|failed]
      eqn:Hscan.
    + rewrite (cycle_scan_raises _ _ _ Hscan). cbn [fst].
      rewrite (for_instruments_quiet env is_run) by reflexivity. lia.
    + rewrite (cycle_count env registry is_run failed)
        by (reflexivity || exact Hscan).
      rewrite alert_and_restart_runs.
      destruct failed; [lia|]. destruct (send_message env _); lia.
  - intros env registry Hrun.
    destruct (snd (for_instruments env (Dict.items registry) [])) as [e|failed]
      eqn:Hscan.
    + rewrite (cycle_scan_raises _ _ _ Hscan) in Hrun. cbn [fst] in Hrun.
      rewrite (for_instruments_quiet env is_run) in Hrun by reflexivity.
      congruence.
    + exists failed. split; [reflexivity|]. intros ->.
      rewrite (cycle_count env registry is_run []) in Hrun
        by (reflexivity || exact Hscan).
      now apply Hrun.
  - intros w registry k t0 failed returncode Hscan Hne Hsend Hrc Hnz now delay.
    assert (Hcycle :
      alert_if_instrument_inactive (cycle w k) registry
      = (fst (for_instruments (cycle w k) (Dict.items registry) [])
           ++ [ SendMessage (alert_text failed);
                SubprocessRun restart_args;
                LogError (MsgScriptFailed (CalledProcessError returncode)) ],
         inr tt)).
    { rewrite (cycle_scanned _ _ _ Hscan).
      rewrite alert_and_restart_eq by exact Hne. cbv zeta.
      rewrite Hsend, Hrc. apply Z.eqb_neq in Hnz. rewrite Hnz. reflexivity. }
    split; [exact Hcycle|].
    assert (Hok : snd (alert_if_instrument_inactive (cycle w k) registry)
                  = inr tt) by now rewrite Hcycle.
    pose proof (iteration_eq w registry k t0 Hok) as Hi. cbv zeta in Hi.
    change (sleep_time t0 (loop_time_end w k)) with delay in Hi.
    rewrite Hi. cbn [fst snd]. rewrite Hcycle. cbn [fst].
    rewrite !count_app,
      !(for_instruments_quiet (cycle w k) _ (Dict.items registry)
          (fun _ => eq_refl) (fun _ => eq_refl)).
    split; [destruct (truthy delay); reflexivity|].
    split; [destruct (truthy delay); reflexivity|].
    split; [reflexivity|].
    intros n Hs Hn Hsleep.
    assert (Hnext : exists t1, snd (iteration w registry k t0) = inr t1).
    { rewrite Hi. cbn [snd]. destruct (truthy delay); [|eauto].
      rewrite (Hsleep eq_refl). eauto. }
    destruct Hnext as [t1 Ht1].
    now rewrite (main_pass_completes w registry n k t0 t1 Hs Hn Ht1).
Qed.

Lemma restart_once_and_failure_logged_witness :
  (count is_run (fst (alert_if_instrument_inactive env_restart_fails demo_registry))
   <= 1)%nat
  /\ (exists failed,
        snd (for_instruments env_restart_fails (Dict.items demo_registry) [])
        = inr failed /\ failed <> [])
  /\ snd (alert_if_instrument_inactive env_restart_fails demo_registry) = inr tt
  /\ final_state (snd (main (world_of env_restart_fails 5) demo_registry 1))
     = Running.
Proof.
  split; [|split; [|split]].
  - apply (proj1 restart_once_and_failure_logged).
  - apply (proj1 (proj2 restart_once_and_failure_logged)).
    vm_compute. discriminate.
  - reflexivity.
  - refine (proj2 (proj2 (proj2 (proj2
      (proj2 (proj2 restart_once_and_failure_logged)
         (world_of env_restart_fails 5) demo_registry 0%nat 0%float
         ["X_1 (Fut)"] 127%Z _ _ _ _ _)))) 0%nat _ _ _);
      [ reflexivity | discriminate | reflexivity | reflexivity | discriminate
      | reflexivity | reflexivity | reflexivity ].
Defined.

(** ** The schedule *)




Lemma cycle_never_sleeps (env : Collaborators) (registry : Dict.t) :
  count is_sleep (fst (alert_if_instrument_inactive env registry)) = 0%nat.
Proof.
  destruct (snd (for_instruments env (Dict.items registry) []))
    as [e|failed] eqn:Hscan.
  - rewrite (cycle_scan_raises _ _ _ Hscan). cbn [fst].
    apply for_instruments_quiet; reflexivity.
  - rewrite (cycle_count _ registry is_sleep failed)
      by (reflexivity || exact Hscan).
    destruct failed as [|f failed]; [reflexivity|].
    rewrite alert_and_restart_eq by discriminate. cbv zeta.
    destruct (send_message env _) as [e|[]]; [reflexivity|].
    destruct (subprocess_returncode env restart_args) as [e|returncode];
      [destruct (is_CalledProcessError e) | destruct (returncode =? 0)%Z];
      reflexivity.
Qed.




(** ** Failures inside a cycle *)

(** C2 fails on the code: the query on [tX] raises, the cycle is left at
    once with that exception, neither [tY] nor [tZ] is queried, no alert
    is sent, and [main] logs the error and returns after this first
    cycle. *)
Lemma query_failure_aborts_cycle :
  query_df env_x_query_raises (select_max "tX")
  = inl (OtherException "DatabaseError")
  /\ alert_if_instrument_inactive env_x_query_raises demo_registry
     = ([QueryDf (select_max "tX")], inl (OtherException "DatabaseError"))
  /\ snd (main (world_of env_x_query_raises 5) demo_registry 3)
     = inr (Unexpected (OtherException "DatabaseError"))
  /\ count is_query (fst (main (world_of env_x_query_raises 5) demo_registry 3))
     = 1%nat
  /\ count is_sleep (fst (main (world_of env_x_query_raises 5) demo_registry 3))
     = 0%nat.
Proof. repeat split; reflexivity. Qed.

(** C2, as it holds of the code: if, in some cycle, the query of an
    instrument raises an [Exception] after the instruments before it were
    evaluated, the cycle ends there with that exception: the instruments
    after it are not queried, no alert is sent and the script is not run.
    [main] catches the exception, logs it and returns (the scheduler is
    Crashed); allowing more passes adds no effect. *)
Theorem query_failure_ends_the_loop (w : World) (registry : Dict.t)
    (n k : nat) (t : float) (before : list (string * string))
    (results : list StalenessCheckResult) (item : string * string)
    (after : list (string * string)) (e : exn) :
  startup_ok w = true ->
  snd (while_true w registry n 0 (loop_start w)) = inr (k, t) ->
  Dict.items registry = before ++ item :: after ->
  Forall2 (evaluated (cycle w k)) before results ->
  query_df (cycle w k) (select_max (snd item)) = inl e ->
  is_Exception e = true ->
  let c := alert_if_instrument_inactive (cycle w k) registry in
  snd c = inl e
  /\ count is_query (fst c) = S (length before)
  /\ count is_send (fst c) = 0%nat
  /\ count is_run (fst c) = 0%nat
  /\ (forall m,
        snd (main w registry (n + S m)) = inr (Unexpected e)
        /\ final_state (snd (main w registry (n + S m))) = Crashed
        /\ In (LogError (MsgUnexpected e)) (fst (main w registry (n + S m)))
        /\ fst (main w registry (n + S m)) = fst (main w registry (n + 1))).
Proof.
  intros Hs Hn Hreg Hbefore Hq Hx c.
  assert (Hbody : snd (has_passed_minutes (cycle w k) item) = inl e).
  { destruct item as [label table]. rewrite has_passed_minutes_eq.
    cbn [snd] in Hq. now rewrite Hq. }
  destruct (for_instruments_raises (cycle w k) before results item after e
              Hbefore Hbody []) as [Hscan Hcount].
  rewrite <- Hreg in Hscan, Hcount.
  assert (Hc : c = (fst (for_instruments (cycle w k) (Dict.items registry) []),
                    inl e)) by exact (cycle_scan_raises _ _ _ Hscan).
  rewrite Hc. cbn [fst snd].
  split; [reflexivity|]. split; [exact Hcount|].
  split; [apply for_instruments_quiet; reflexivity|].
  split; [apply for_instruments_quiet; reflexivity|].
  assert (Hraise : snd (alert_if_instrument_inactive (cycle w k) registry)
                   = inl e) by (fold c; now rewrite Hc).
  destruct (main_cycle_raises w registry n k t e Hs Hn Hraise Hx)
    as [username Hmain].
  intros m. rewrite (Hmain m), (Hmain 0%nat). cbn [fst snd final_state].
  repeat split.
  apply in_or_app. right. apply in_or_app. right. now left.
Qed.

Lemma query_failure_ends_the_loop_witness :
  snd (alert_if_instrument_inactive env_x_query_raises demo_registry)
  = inl (OtherException "DatabaseError")
  /\ final_state (snd (main (world_of env_x_query_raises 5) demo_registry 3))
     = Crashed.
Proof.
  pose proof (query_failure_ends_the_loop
                (world_of env_x_query_raises 5) demo_registry
                0%nat 0%nat 0 [] [] ("X_1 (Fut)", "tX")
                [("Y (Fut)", "tY"); ("Z (Spt)", "tZ")]
                (OtherException "DatabaseError")
                eq_refl eq_refl eq_refl (Forall2_nil _) eq_refl eq_refl) as H.
  cbv zeta in H. split.
  - exact (proj1 H).
  - exact (proj1 (proj2 (proj2 (proj2 (proj2 (proj2 H))) 2%nat))).
Defined.

(** C5 fails on the code: the alert's send raises [TelegramError], the
    script is not run, and [main] logs the error and returns: no sleep is
    scheduled and no second cycle runs, however many passes are allowed. *)
Lemma channel_error_ends_the_loop_example :
  snd (for_instruments env_send_raises (Dict.items demo_registry) [])
  = inr ["X_1 (Fut)"]
  /\ send_message env_send_raises (alert_text ["X_1 (Fut)"])
     = inl (TelegramError "Timed out")
  /\ snd (alert_if_instrument_inactive env_send_raises demo_registry)
     = inl (TelegramError "Timed out")
  /\ snd (main (world_of env_send_raises 5) demo_registry 3)
     = inr (Unexpected (TelegramError "Timed out"))
  /\ count is_sleep (fst (main (world_of env_send_raises 5) demo_registry 3))
     = 0%nat
  /\ count is_query (fst (main (world_of env_send_raises 5) demo_registry 3))
     = 3%nat.
Proof. repeat split; reflexivity. Qed.

(** C5, as it holds of the code: if, in some cycle with failed
    instruments, sending the alert raises [TelegramError], the cycle ends
    with that exception and the script is not run; [main] catches it as an
    unexpected error, logs it and returns (the scheduler is Crashed), and
    allowing more passes adds no effect: the pass does not sleep and no
    later cycle runs. *)
Theorem channel_error_ends_the_loop (w : World) (registry : Dict.t)
    (n k : nat) (t : float) (failed : list string) (message : string) :
  startup_ok w = true ->
  snd (while_true w registry n 0 (loop_start w)) = inr (k, t) ->
  snd (for_instruments (cycle w k) (Dict.items registry) []) = inr failed ->
  failed <> [] ->
  send_message (cycle w k) (alert_text failed) = inl (TelegramError message) ->
  let c := alert_if_instrument_inactive (cycle w k) registry in
  snd c = inl (TelegramError message)
  /\ count is_send (fst c) = 1%nat
  /\ count is_run (fst c) = 0%nat
  /\ (forall m,
        snd (main w registry (n + S m))
        = inr (Unexpected (TelegramError message))
        /\ final_state (snd (main w registry (n + S m))) = Crashed
        /\ In (LogError (MsgUnexpected (TelegramError message)))
              (fst (main w registry (n + S m)))
        /\ fst (main w registry (n + S m)) = fst (main w registry (n + 1)))
  /\ count is_sleep (fst (iteration w registry k t)) = 0%nat.
Proof.
  intros Hs Hn Hscan Hne Hsend c.
  assert (Hc : c = (fst (for_instruments (cycle w k) (Dict.items registry) [])
                      ++ [SendMessage (alert_text failed)],
                    inl (TelegramError message))).
  { unfold c. rewrite (cycle_scanned _ _ _ Hscan).
    rewrite alert_and_restart_eq by exact Hne. cbv zeta. now rewrite Hsend. }
  assert (Hraise : snd (alert_if_instrument_inactive (cycle w k) registry)
                   = inl (TelegramError message)) by (fold c; now rewrite Hc).
  rewrite Hc. cbn [fst snd].
  rewrite !count_app,
    !(for_instruments_quiet (cycle w k) _ (Dict.items registry)
        (fun _ => eq_refl) (fun _ => eq_refl)).
  split; [reflexivity|]. split; [reflexivity|]. split; [reflexivity|].
  destruct (main_cycle_raises w registry n k t (TelegramError message)
              Hs Hn Hraise eq_refl) as [username Hmain].
  split.
  - intros m. rewrite (Hmain m), (Hmain 0%nat). cbn [fst snd final_state].
    repeat split.
    apply in_or_app. right. apply in_or_app. right. now left.
  - rewrite (iteration_raises w registry k t _ Hraise). cbn [fst].
    apply cycle_never_sleeps.
Qed.

Lemma channel_error_ends_the_loop_witness :
  snd (alert_if_instrument_inactive env_send_raises demo_registry)
  = inl (TelegramError "Timed out")
  /\ final_state (snd (main (world_of env_send_raises 5) demo_registry 3))
     = Crashed.
Proof.
  pose proof (channel_error_ends_the_loop
                (world_of env_send_raises 5) demo_registry
                0%nat 0%nat 0 ["X_1 (Fut)"] "Timed out"
                eq_refl eq_refl eq_refl) as H.
  assert (Hne : ["X_1 (Fut)"] <> @nil string) by discriminate.
  specialize (H Hne eq_refl). cbv zeta in H. split.
  - exact (proj1 H).
  - exact (proj1 (proj2 (proj1 (proj2 (proj2 (proj2 H))) 2%nat))).
Defined.

(** ** Start-up *)

(** C9: if creating the bot, [get_me] or the start-up send fails, [main]
    ends Crashed without entering the loop: no table is queried, nothing
    sleeps, the script is not run; the bot is created once, [get_me] and
    the start-up send are tried at most once; and the run is the same
    whatever number of passes the loop would have been allowed. *)
Theorem startup_failure_is_fatal (w : World) (registry : Dict.t) (fuel : nat) :
  startup_ok w = false ->
  let r := main w registry fuel in
  final_state (snd r) = Crashed
  /\ count is_query (fst r) = 0%nat
  /\ count is_sleep (fst r) = 0%nat
  /\ count is_run (fst r) = 0%nat
  /\ count is_bot_new (fst r) = 1%nat
  /\ (count is_get_me (fst r) <= 1)%nat
  /\ (count is_send (fst r) <= 1)%nat
  /\ main w registry fuel = main w registry 0.
Proof.
  unfold startup_ok, main, initialise. intros H.
  destruct (bot_new w) as [e|[]].
  { cbn. repeat split; lia. }
  destruct (get_me_username w) as [e|username].
  { destruct e; cbn; repeat split; lia. }
  destruct (startup_send w (startup_text username)) as [e|[]] eqn:Hs;
    [|discriminate].
  unfold emit, call, ret, bind, try_except. cbv zeta. rewrite Hs.
  destruct e; cbn; repeat split; lia.
Qed.

Lemma startup_failure_is_fatal_witness :
  startup_ok world_startup_send_fails = false
  /\ final_state (snd (main world_startup_send_fails demo_registry 4)) = Crashed
  /\ count is_query (fst (main world_bad_token demo_registry 4)) = 0%nat.
Proof.
  split; [reflexivity|]. split.
  - exact (proj1 (startup_failure_is_fatal world_startup_send_fails
                    demo_registry 4 eq_refl)).
  - exact (proj1 (proj2 (startup_failure_is_fatal world_bad_token
                           demo_registry 4 eq_refl))).
Defined.

(** * Further properties of the code *)

(** ** More on escaping *)

Lemma string_two_step (P : string -> Prop) :
  P EmptyString ->
  (forall c, P (String c EmptyString)) ->
  (forall c d rest, P rest -> P (String d rest) -> P (String c (String d rest))) ->
  forall text, P text.
Proof.
  intros H0 H1 H2 text.
  assert (H : P text /\ forall c, P (String c text)).
  { induction text as [|d rest [IH1 IH2]].
    - split; [exact H0 | exact H1].
    - split; [apply IH2|]. intros c. apply H2; [exact IH1 | apply IH2]. }
  exact (proj1 H).
Qed.

Lemma well_escaped_escape_spec (text : string) :
  well_escaped (escape_spec text) = true.
Proof.
  induction text as [|c rest IH]; [reflexivity|].
  cbn [escape_spec]. destruct (Py.contains c SPECIAL_CHARS) eqn:Hc.
  - cbn [well_escaped]. rewrite Ascii.eqb_refl, Hc, IH. reflexivity.
  - cbn [well_escaped]. rewrite (not_special_not_backslash c Hc), Hc, IH.
    reflexivity.
Qed.

Lemma escape_unescape_spec (text : string) :
  well_escaped text = true -> escape_spec (unescape_spec text) = text.
Proof.
  induction text as [| c | c d rest IH1 IH2] using string_two_step.
  - reflexivity.
  - cbn [well_escaped unescape_spec escape_spec].
    destruct (Ascii.eqb c backslash); [discriminate|].
    destruct (Py.contains c SPECIAL_CHARS); [discriminate | reflexivity].
  - intros H. rewrite unescape_spec_cons2.
    change (well_escaped (String c (String d rest)))
      with (if Ascii.eqb c backslash
            then (Py.contains d SPECIAL_CHARS && well_escaped rest)%bool
            else (negb (Py.contains c SPECIAL_CHARS)
                  && well_escaped (String d rest))%bool) in H.
    destruct (Ascii.eqb c backslash) eqn:Hc.
    + apply andb_prop in H. destruct H as [Hd Hr]. rewrite Hd. cbn [andb].
      cbn [escape_spec]. rewrite Hd, (IH1 Hr).
      apply Ascii.eqb_eq in Hc. now subst c.
    + apply andb_prop in H. destruct H as [Hn Hr]. cbn [andb].
      cbn [escape_spec]. apply negb_true_iff in Hn. rewrite Hn.
      fold (escape_spec (unescape_spec (String d rest))).
      now rewrite (IH2 Hr).
Qed.

(** X1: the output of [escape_markdown] never has a bare reserved
    character: read from the left it is made of plain characters and
    backslash-reserved pairs.  Conversely every text of that shape is the
    escaping of the text obtained by dropping the escapes. *)
Theorem escape_markdown_well_escaped :
  (forall text : string, well_escaped (escape_markdown text) = true)
  /\ (forall text : string,
        well_escaped text = true ->
        escape_markdown (unescape_spec text) = text).
Proof.
  split.
  - intros text. rewrite escape_markdown_spec. apply well_escaped_escape_spec.
  - intros text H. rewrite escape_markdown_spec. now apply escape_unescape_spec.
Qed.

Lemma escape_markdown_well_escaped_witness :
  well_escaped "a\_b\\c" = true
  /\ escape_markdown (unescape_spec "a\_b\\c") = "a\_b\\c"%string.
Proof.
  split; [reflexivity|].
  exact (proj2 escape_markdown_well_escaped "a\_b\\c"%string eq_refl).
Defined.

Lemma escape_spec_plain (text : string) :
  count_special text = 0%nat -> escape_spec text = text.
Proof.
  induction text as [|c rest IH]; [reflexivity|].
  cbn [count_special escape_spec].
  destruct (Py.contains c SPECIAL_CHARS); [discriminate|].
  intros H. now rewrite (IH H).
Qed.

(** X2: [escape_markdown] returns its argument unchanged exactly when the
    argument has no reserved character; and escaping an already escaped
    text changes it again exactly when the original has one, so the
    function is not idempotent. *)
Theorem escape_markdown_fixed_point (text : string) :
  (escape_markdown text = text <-> count_special text = 0%nat)
  /\ (escape_markdown (escape_markdown text) = escape_markdown text
      <-> count_special text = 0%nat).
Proof.
  assert (H1 : escape_markdown text = text <-> count_special text = 0%nat).
  { split.
    - intros H. pose proof (length_escape_spec text) as L.
      rewrite <- escape_markdown_spec, H in L. lia.
    - intros H. rewrite escape_markdown_spec. now apply escape_spec_plain. }
  split; [exact H1|]. split.
  - intros H. apply H1.
    rewrite <- (unescape_escape_spec (escape_markdown text)),
      <- escape_markdown_spec, H, escape_markdown_spec.
    apply unescape_escape_spec.
  - intros H. apply H1 in H. now rewrite !H.
Qed.

Lemma escape_markdown_fixed_point_witness :
  escape_markdown "BTCUSDT" = "BTCUSDT"%string
  /\ count_special "BTC_USD" <> 0%nat
  /\ escape_markdown (escape_markdown "BTC_USD") <> escape_markdown "BTC_USD".
Proof.
  split; [|split].
  - apply (proj1 (escape_markdown_fixed_point "BTCUSDT")). reflexivity.
  - discriminate.
  - intros H. apply (proj2 (escape_markdown_fixed_point "BTC_USD")) in H.
    discriminate H.
Defined.

(** ** The texts sent to the channel *)

Section Messages.

Local Open Scope string_scope.

Lemma append_assoc (s1 s2 s3 : string) : (s1 ++ s2) ++ s3 = s1 ++ s2 ++ s3.
Proof. induction s1 as [|c s1 IH]; simpl; [reflexivity | now rewrite IH]. Qed.

Lemma special_star : Py.contains "*"%char SPECIAL_CHARS = true.
Proof. reflexivity. Qed.

Lemma not_special_not_star (c : ascii) :
  Py.contains c SPECIAL_CHARS = false -> Ascii.eqb c "*" = false.
Proof.
  intros H. destruct (Ascii.eqb c "*") eqn:E; [|reflexivity].
  apply Ascii.eqb_eq in E. subst c. rewrite special_star in H. discriminate.
Qed.

Lemma markdown_v2_plain_app (s r : string) (bold : bool) :
  plain s = true -> markdown_v2 bold (s ++ r) = markdown_v2 bold r.
Proof.
  induction s as [|c s IH]; [reflexivity|].
  cbn [plain]. intros H. apply andb_prop in H. destruct H as [Hc Hs].
  apply negb_true_iff in Hc. cbn [append markdown_v2].
  rewrite (not_special_not_backslash c Hc), (not_special_not_star c Hc), Hc.
  cbn [negb andb]. now apply IH.
Qed.

Lemma markdown_v2_escape_app (s r : string) (bold : bool) :
  markdown_v2 bold (escape_spec s ++ r) = markdown_v2 bold r.
Proof.
  induction s as [|c s IH]; [reflexivity|].
  cbn [escape_spec]. destruct (Py.contains c SPECIAL_CHARS) eqn:Hc.
  - cbn [append markdown_v2]. rewrite Ascii.eqb_refl, Hc. cbn [andb].
    apply IH.
  - cbn [append markdown_v2].
    rewrite (not_special_not_backslash c Hc), (not_special_not_star c Hc), Hc.
    cbn [negb andb]. apply IH.
Qed.

Lemma markdown_v2_bold_label (label r : string) :
  markdown_v2 false (("*" ++ escape_markdown label ++ "*") ++ r)
  = markdown_v2 false r.
Proof.
  rewrite escape_markdown_spec.
  change (("*" ++ escape_spec label ++ "*") ++ r)
    with (String "*" ((escape_spec label ++ "*") ++ r)).
  rewrite append_assoc.
  change (markdown_v2 false (String "*" (escape_spec label ++ "*" ++ r)))
    with (markdown_v2 true (escape_spec label ++ "*" ++ r)).
  rewrite markdown_v2_escape_app. reflexivity.
Qed.

Lemma markdown_v2_labels (labels : list string) (r : string) :
  markdown_v2 false
    (Py.join ", " (map (fun l => "*" ++ escape_markdown l ++ "*") labels) ++ r)
  = markdown_v2 false r.
Proof.
  induction labels as [|l labels IH]; [reflexivity|].
  destruct labels as [|l' labels].
  - cbn [map Py.join]. apply markdown_v2_bold_label.
  - change (Py.join ", " (map (fun l => "*" ++ escape_markdown l ++ "*")
                              (l :: l' :: labels)))
      with (("*" ++ escape_markdown l ++ "*") ++ ", "
            ++ Py.join ", " (map (fun l => "*" ++ escape_markdown l ++ "*")
                                 (l' :: labels))).
    rewrite append_assoc, markdown_v2_bold_label, append_assoc.
    rewrite markdown_v2_plain_app by reflexivity. exact IH.
Qed.

Lemma plain_digits (d : Decimal.uint) :
  plain (NilEmpty.string_of_uint d) = true.
Proof. induction d; cbn [NilEmpty.string_of_uint plain]; try rewrite IHd; reflexivity. Qed.

Lemma plain_str_of_nat (n : nat) : plain (Py.str_of_nat n) = true.
Proof.
  unfold Py.str_of_nat, NilZero.string_of_uint.
  destruct (Nat.to_uint n) eqn:E; try (rewrite <- E; apply plain_digits).
  reflexivity.
Qed.

Lemma join_mentions (sep p : string) (parts : list string) :
  In p parts -> exists pre post, Py.join sep parts = pre ++ p ++ post.
Proof.
  induction parts as [|q parts IH]; [intros []|].
  intros [->|Hin].
  - exists "". destruct parts as [|q' parts].
    + exists "". cbn [Py.join append]. now rewrite append_empty_r.
    + now exists (sep ++ Py.join sep (q' :: parts)).
  - destruct (IH Hin) as [pre [post E]].
    destruct parts as [|q' parts]; [destruct Hin|].
    exists (q ++ sep ++ pre), post.
    change (Py.join sep (q :: q' :: parts))
      with (q ++ sep ++ Py.join sep (q' :: parts)).
    now rewrite E, !append_assoc.
Qed.

End Messages.

(** X3: both texts the bot sends are well-formed MarkdownV2 whatever the
    labels and the user name contain: apart from backslash escapes, their
    only reserved characters are the asterisks around each label, and
    these are paired. *)
Theorem messages_are_markdown_v2 :
  (forall failed_instruments : list string,
      markdown_v2 false (alert_text failed_instruments) = true)
  /\ (forall username : string,
        markdown_v2 false (startup_text username) = true).
Proof.
  split.
  - intros failed. unfold alert_text.
    rewrite markdown_v2_plain_app by reflexivity.
    rewrite markdown_v2_plain_app by reflexivity.
    rewrite markdown_v2_plain_app by apply plain_str_of_nat.
    rewrite markdown_v2_plain_app by reflexivity.
    rewrite markdown_v2_labels. reflexivity.
  - intros username. unfold startup_text.
    rewrite markdown_v2_plain_app by reflexivity.
    rewrite escape_markdown_spec, markdown_v2_escape_app. reflexivity.
Qed.

(** X4: the alert names every failed instrument: for each label of
    [failed_instruments] the text contains that label, escaped, between
    two asterisks. *)
Theorem alert_text_mentions (failed_instruments : list string)
    (label : string) :
  In label failed_instruments ->
  exists pre post,
    alert_text failed_instruments
    = (pre ++ ("*" ++ escape_markdown label ++ "*") ++ post)%string.
Proof.
  intros Hin.
  destruct (join_mentions ", " ("*" ++ escape_markdown label ++ "*")%string
              (map (fun l => "*" ++ escape_markdown l ++ "*")%string
                   failed_instruments)) as [pre [post E]].
  { apply (in_map (fun l => "*" ++ escape_markdown l ++ "*")%string). exact Hin. }
  unfold alert_text. rewrite E.
  exists (warning_sign ++ " Alert: "
          ++ Py.str_of_nat (length failed_instruments) ++ " instruments "
          ++ pre)%string,
         (post ++ " stopped updating")%string.
  now rewrite !append_assoc.
Qed.

Lemma alert_text_mentions_witness :
  exists pre post,
    alert_text ["A_1"; "B.2"]
    = (pre ++ ("*" ++ escape_markdown "B.2" ++ "*") ++ post)%string.
Proof.
  apply (alert_text_mentions ["A_1"; "B.2"] "B.2"). right. now left.
Defined.

(** ** More on the loop over the registry *)

Lemma queries_app (tr1 tr2 : list event) :
  queries (tr1 ++ tr2) = queries tr1 ++ queries tr2.
Proof.
  induction tr1 as [|ev tr1 IH]; [reflexivity|].
  destruct ev; cbn [app queries]; rewrite IH; reflexivity.
Qed.

Lemma has_passed_minutes_queries (env : Collaborators) (item : string * string) :
  queries (fst (has_passed_minutes env item)) = [select_max (snd item)].
Proof.
  destruct item as [label table]. rewrite has_passed_minutes_eq.
  destruct (query_df env (select_max table)) as [e|df];
    [|destruct (iloc00 df) as [e|value]]; reflexivity.
Qed.

Lemma for_instruments_queries (env : Collaborators)
    (items : list (string * string)) :
  forall acc,
    exists n,
      queries (fst (for_instruments env items acc))
      = firstn n (map (fun item => select_max (snd item)) items)
      /\ (forall failed,
            snd (for_instruments env items acc) = inr failed ->
            n = length items).
Proof.
  induction items as [|item rest IH]; intros acc.
  - exists 0%nat. split; [reflexivity | reflexivity].
  - rewrite for_instruments_cons.
    pose proof (has_passed_minutes_queries env item) as Hq.
    destruct (has_passed_minutes env item) as [tr [e|passed]] eqn:E.
    + exists 1%nat. cbn [bind fst snd]. cbn [fst] in Hq. rewrite Hq.
      split; [reflexivity | discriminate].
    + cbn [bind fst snd]. cbn [fst] in Hq.
      destruct (IH (if passed then acc ++ [fst item] else acc))
        as [n [Hn Hlen]].
      exists (S n). rewrite queries_app, Hq, Hn. split; [reflexivity|].
      intros failed H. cbn [length]. f_equal. now apply (Hlen failed).
Qed.

Lemma alert_and_restart_queries (env : Collaborators) (failed : list string) :
  queries (fst (alert_and_restart env failed)) = [].
Proof.
  destruct failed as [|f failed]; [reflexivity|].
  rewrite alert_and_restart_eq by discriminate. cbv zeta.
  destruct (send_message env _) as [e|[]]; [reflexivity|].
  destruct (subprocess_returncode env restart_args) as [e|returncode];
    [destruct (is_CalledProcessError e) | destruct (returncode =? 0)%Z];
    reflexivity.
Qed.

(** X5: in a cycle the tables are queried in registry order, each with
    [SELECT max(o_ts_exch) FROM table], none twice and none skipped: the
    queries made are always a prefix of the registry's, and all of them
    when the loop over the registry completes. *)
Theorem cycle_queries_registry_order (env : Collaborators) (registry : Dict.t) :
  exists n,
    queries (fst (alert_if_instrument_inactive env registry))
    = firstn n (registry_queries registry)
    /\ (forall failed,
          snd (for_instruments env (Dict.items registry) []) = inr failed ->
          queries (fst (alert_if_instrument_inactive env registry))
          = registry_queries registry).
Proof.
  destruct (for_instruments_queries env (Dict.items registry) [])
    as [n [Hn Hlen]].
  assert (Hq : queries (fst (alert_if_instrument_inactive env registry))
               = queries (fst (for_instruments env (Dict.items registry) []))).
  { destruct (snd (for_instruments env (Dict.items registry) []))
      as [e|failed] eqn:Hscan.
    - now rewrite (cycle_scan_raises _ _ _ Hscan).
    - rewrite (cycle_scanned _ _ _ Hscan). cbn [fst].
      now rewrite queries_app, alert_and_restart_queries, app_nil_r. }
  exists n. rewrite Hq. split; [exact Hn|].
  intros failed H. rewrite Hn, (Hlen failed H).
  unfold registry_queries.
  rewrite <- (length_map (fun item => select_max (snd item))).
  apply firstn_all.
Qed.

Lemma cycle_queries_registry_order_witness :
  queries (fst (alert_if_instrument_inactive env_x_old demo_registry))
  = registry_queries demo_registry.
Proof.
  destruct (cycle_queries_registry_order env_x_old demo_registry)
    as [n [_ H]].
  exact (H ["X_1 (Fut)"] eq_refl).
Defined.

Lemma for_instruments_inv (env : Collaborators)
    (items : list (string * string)) :
  forall acc failed,
    snd (for_instruments env items acc) = inr failed ->
    exists results,
      Forall2 (evaluated env) items results
      /\ failed = acc ++ map instrument (filter is_stale results).
Proof.
  induction items as [|item rest IH]; intros acc failed H.
  - exists []. cbn in H. inversion H. split; [constructor|].
    cbn. now rewrite app_nil_r.
  - rewrite for_instruments_cons in H.
    destruct (has_passed_minutes env item) as [tr [e|passed]] eqn:E;
      cbn [bind snd] in H; [discriminate|].
    destruct (IH _ _ H) as [results [Hres Hf]].
    exists ({| instrument := fst item; is_stale := passed |} :: results).
    split.
    + constructor; [|exact Hres]. split; [reflexivity|]. now rewrite E.
    + cbn [filter is_stale]. destruct passed; [|exact Hf].
      cbn [map instrument]. now rewrite Hf, <- app_assoc.
Qed.

Lemma evaluated_labels (env : Collaborators) (items : list (string * string))
    (results : list StalenessCheckResult) :
  Forall2 (evaluated env) items results ->
  map instrument results = map fst items.
Proof.
  induction 1 as [|item r items results [Hi _] _ IH]; [reflexivity|].
  cbn [map]. now rewrite Hi, IH.
Qed.

(** Selecting the stale results keeps their labels distinct. *)
Lemma stale_labels_NoDup (results : list StalenessCheckResult) :
  NoDup (map instrument results) ->
  NoDup (map instrument (filter is_stale results)).
Proof.
  induction results as [|r results IH]; cbn [map filter]; intros Hnd;
    [constructor|].
  apply NoDup_cons_iff in Hnd. destruct Hnd as [Hfresh Hrest].
  destruct (is_stale r); [|now apply IH].
  cbn [map]. apply NoDup_cons; [|now apply IH].
  intros Hin. apply Hfresh.
  apply in_map_iff in Hin. destruct Hin as [r' [Hlabel Hsel]].
  apply filter_In in Hsel. rewrite <- Hlabel. apply in_map. tauto.
Qed.

(** X6: when the labels of the registry are pairwise distinct, as the keys
    of a Python dict are, the [failed_instruments] of a cycle has no
    duplicate, and each of its entries is a label of the registry. *)
Theorem failed_instruments_distinct (env : Collaborators) (registry : Dict.t)
    (failed : list string) :
  NoDup (Dict.keys registry) ->
  snd (for_instruments env (Dict.items registry) []) = inr failed ->
  NoDup failed /\ incl failed (Dict.keys registry).
Proof.
  intros Hnd H.
  destruct (for_instruments_inv env _ _ _ H) as [results [Hres Hf]].
  cbn [app] in Hf. subst failed.
  pose proof (evaluated_labels env _ _ Hres) as Hl.
  split.
  - apply stale_labels_NoDup. rewrite Hl. exact Hnd.
  - intros x Hx. apply in_map_iff in Hx. destruct Hx as [r [Hr Hin]].
    apply filter_In in Hin. unfold Dict.keys, Dict.items in *.
    rewrite <- Hl, <- Hr. apply in_map. tauto.
Qed.

Lemma failed_instruments_distinct_witness :
  NoDup ["X_1 (Fut)"] /\ incl ["X_1 (Fut)"] (Dict.keys demo_registry).
Proof.
  apply (failed_instruments_distinct env_x_old demo_registry ["X_1 (Fut)"]).
  - repeat constructor; cbn; intuition discriminate.
  - reflexivity.
Defined.

(** ** More on staleness *)

(** X7: staleness only grows with time: with the same last update, an
    instrument found stale at one reading of the clock is stale at every
    later one.  For a last update without time zone the comparison is
    strict: exactly ten minutes old is not stale, one nanosecond older
    is.  A last update with a time zone cannot be compared with the naive
    [datetime.now()]: after the value is logged the comparison raises
    [TypeError], and there is no staleness result. *)
Theorem staleness_monotone_and_strict :
  (forall (env env' : Collaborators) (label table : string) (df : DataFrame),
      query_df env (select_max table) = inr df ->
      query_df env' (select_max table) = inr df ->
      (datetime_now env label <= datetime_now env' label)%Z ->
      snd (has_passed_minutes env (label, table)) = inr true ->
      snd (has_passed_minutes env' (label, table)) = inr true)
  /\ (forall (env : Collaborators) (label table : string) (age : Z)
             (row : list cell) (rows : DataFrame),
        query_df env (select_max table)
        = inr ((Timestamp (datetime_now env label - age) :: row) :: rows) ->
        snd (has_passed_minutes env (label, table))
        = inr (threshold <? age)%Z)
  /\ (forall (env : Collaborators) (label table : string) (ns : Z)
             (row : list cell) (rows : DataFrame),
        query_df env (select_max table)
        = inr ((TimestampTz ns :: row) :: rows) ->
        has_passed_minutes env (label, table)
        = ([QueryDf (select_max table);
            LogInfo (MsgTableValue table (TimestampTz ns))],
           inl TypeError)).
Proof.
  split; [|split].
  - intros env env' label table df Hq Hq' Hle.
    rewrite !has_passed_minutes_eq, Hq, Hq'.
    destruct (iloc00 df) as [e|[ns|ns|]]; cbn [snd cell_lt];
      [discriminate | | discriminate | discriminate].
    intros H.
    assert (H1 : (ns <? datetime_now env label - threshold)%Z = true)
      by congruence.
    f_equal. apply Z.ltb_lt in H1. apply Z.ltb_lt. lia.
  - intros env label table age row rows Hq.
    rewrite has_passed_minutes_eq, Hq. cbn [iloc00 snd cell_lt]. f_equal.
    destruct (Z.ltb_spec (datetime_now env label - age)
                         (datetime_now env label - threshold));
      destruct (Z.ltb_spec threshold age); (reflexivity || lia).
  - intros env label table ns row rows Hq.
    rewrite has_passed_minutes_eq, Hq. reflexivity.
Qed.

Lemma staleness_monotone_and_strict_witness :
  snd (has_passed_minutes (env_later env_x_old 60) ("X_1 (Fut)", "tX"))
  = inr true
  /\ snd (has_passed_minutes env_x_old ("X_1 (Fut)", "tX"))
     = inr (threshold <? Timedelta_minutes 15)%Z
  /\ snd (has_passed_minutes env_x_aware ("X_1 (Fut)", "tX")) = inl TypeError.
Proof.
  split; [|split].
  - apply (proj1 staleness_monotone_and_strict env_x_old
             (env_later env_x_old 60) "X_1 (Fut)" "tX" old_frame);
      [reflexivity | reflexivity | vm_compute; discriminate | reflexivity].
  - exact (proj1 (proj2 staleness_monotone_and_strict) env_x_old "X_1 (Fut)"
             "tX" (Timedelta_minutes 15) [] [] eq_refl).
  - exact (f_equal snd
             (proj2 (proj2 staleness_monotone_and_strict) env_x_aware
                "X_1 (Fut)" "tX" noon [] [] eq_refl)).
Defined.

(** ** How [main] is left *)

Lemma while_true_pass_raises (w : World) (registry : Dict.t)
    (n k : nat) (t : float) (e : exn) (m : nat) :
  snd (while_true w registry n 0 (loop_start w)) = inr (k, t) ->
  snd (iteration w registry k t) = inl e ->
  while_true w registry (n + S m) 0 (loop_start w)
  = (fst (while_true w registry n 0 (loop_start w))
       ++ fst (iteration w registry k t),
     inl e).
Proof.
  intros Hn He. rewrite (while_true_add _ _ _ _ _ _ _ _ Hn).
  now rewrite while_true_S, (bind_inl _ _ e He).
Qed.

Lemma monitoring_exit (w : World) (registry : Dict.t) (fuel : nat) (e : exn) :
  snd (while_true w registry fuel 0 (loop_start w)) = inl e ->
  monitoring w registry fuel
  = (fst (while_true w registry fuel 0 (loop_start w)) ++ fst (loop_exit e),
     snd (loop_exit e)).
Proof.
  intros H. rewrite (monitoring_raises _ _ _ _ H). cbv zeta. unfold loop_exit.
  destruct (is_CancelledError e); [reflexivity|].
  destruct (is_Exception e); [reflexivity|]. cbn [fst snd].
  now rewrite app_nil_r.
Qed.

Lemma main_pass_raises (w : World) (registry : Dict.t) (n k : nat) (t : float)
    (e : exn) :
  startup_ok w = true ->
  snd (while_true w registry n 0 (loop_start w)) = inr (k, t) ->
  snd (iteration w registry k t) = inl e ->
  exists username,
    get_me_username w = inr username
    /\ forall m,
        main w registry (n + S m)
        = (startup_trace username
             ++ (fst (while_true w registry n 0 (loop_start w))
                   ++ fst (iteration w registry k t))
             ++ fst (loop_exit e),
           snd (loop_exit e)).
Proof.
  intros Hs Hn He.
  destruct (main_started w registry 0 Hs) as [username [Hu _]].
  exists username. split; [exact Hu|]. intros m.
  destruct (main_started w registry (n + S m) Hs) as [u' [Hu' Hm]].
  assert (u' = username) by congruence. subst u'.
  pose proof (while_true_pass_raises w registry n k t e m Hn He) as Hw.
  rewrite Hm, (monitoring_exit w registry (n + S m) e) by now rewrite Hw.
  now rewrite Hw.
Qed.

Lemma final_state_loop_exit (e : exn) :
  final_state (snd (loop_exit e))
  = if is_CancelledError e then Stopped else Crashed.
Proof.
  unfold loop_exit. destruct (is_CancelledError e); [reflexivity|].
  destruct (is_Exception e); reflexivity.
Qed.

(** X10: when a pass of the loop raises, [main] is left according to the
    exception's class, whatever number of passes would still be allowed:
    [CancelledError] is logged at info level and [main] returns (Stopped);
    any other [Exception] is logged as an error and [main] returns
    (Crashed); anything else is not logged and leaves [main] (Crashed).
    The log line, if any, is the last effect of the run. *)
Theorem loop_left_by_exception_class (w : World) (registry : Dict.t)
    (n k : nat) (t : float) (e : exn) :
  startup_ok w = true ->
  snd (while_true w registry n 0 (loop_start w)) = inr (k, t) ->
  snd (iteration w registry k t) = inl e ->
  forall m,
    snd (main w registry (n + S m))
    = (if is_CancelledError e then inr Cancelled
       else if is_Exception e then inr (Unexpected e) else inl e)
    /\ final_state (snd (main w registry (n + S m)))
       = (if is_CancelledError e then Stopped else Crashed)
    /\ (exists pre,
          fst (main w registry (n + S m))
          = pre ++ (if is_CancelledError e then [LogInfo MsgCancelled]
                    else if is_Exception e then [LogError (MsgUnexpected e)]
                    else []))
    /\ fst (main w registry (n + S m)) = fst (main w registry (n + 1)).
Proof.
  intros Hs Hn He m.
  destruct (main_pass_raises w registry n k t e Hs Hn He)
    as [username [_ Hmain]].
  rewrite (Hmain m), (Hmain 0%nat). cbn [fst snd].
  rewrite final_state_loop_exit.
  split; [|split; [reflexivity|split; [|reflexivity]]].
  - unfold loop_exit. destruct (is_CancelledError e); [reflexivity|].
    destruct (is_Exception e); reflexivity.
  - eexists. rewrite app_assoc. f_equal.
    unfold loop_exit. destruct (is_CancelledError e); [reflexivity|].
    destruct (is_Exception e); reflexivity.
Qed.

Lemma loop_left_by_exception_class_witness :
  snd (main (world_cancelled_at env_fresh 5 1) demo_registry 4) = inr Cancelled
  /\ final_state (snd (main (world_cancelled_at env_fresh 5 1) demo_registry 4))
     = Stopped.
Proof.
  pose proof (loop_left_by_exception_class
                (world_cancelled_at env_fresh 5 1) demo_registry
                1%nat 1%nat 600%float
                CancelledError eq_refl eq_refl eq_refl 2%nat) as H.
  split; [exact (proj1 H) | exact (proj1 (proj2 H))].
Defined.

(** X8: a frame without a first row, or whose first row has no column,
    makes [iloc[0, 0]] raise [IndexError] before the table's value is
    logged; the cycle ends there, without alert or script, and [main]
    logs the error and returns. *)
Theorem empty_frame_ends_the_loop (w : World) (registry : Dict.t)
    (n k : nat) (t : float) (before : list (string * string))
    (results : list StalenessCheckResult) (item : string * string)
    (after : list (string * string)) (df : DataFrame) :
  startup_ok w = true ->
  snd (while_true w registry n 0 (loop_start w)) = inr (k, t) ->
  Dict.items registry = before ++ item :: after ->
  Forall2 (evaluated (cycle w k)) before results ->
  query_df (cycle w k) (select_max (snd item)) = inr df ->
  (df = [] \/ exists rows, df = [] :: rows) ->
  has_passed_minutes (cycle w k) item
  = ([QueryDf (select_max (snd item))], inl IndexError)
  /\ snd (alert_if_instrument_inactive (cycle w k) registry) = inl IndexError
  /\ count is_send (fst (alert_if_instrument_inactive (cycle w k) registry))
     = 0%nat
  /\ count is_run (fst (alert_if_instrument_inactive (cycle w k) registry))
     = 0%nat
  /\ (forall m,
        snd (main w registry (n + S m)) = inr (Unexpected IndexError)).
Proof.
  intros Hs Hn Hreg Hbefore Hq Hdf.
  assert (Hi : iloc00 df = inl IndexError).
  { destruct Hdf as [->|[rows ->]]; reflexivity. }
  assert (Hbody : has_passed_minutes (cycle w k) item
                  = ([QueryDf (select_max (snd item))], inl IndexError)).
  { destruct item as [label table]. rewrite has_passed_minutes_eq.
    cbn [snd] in *. now rewrite Hq, Hi. }
  split; [exact Hbody|].
  assert (Hsnd : snd (has_passed_minutes (cycle w k) item) = inl IndexError)
    by now rewrite Hbody.
  destruct (for_instruments_raises (cycle w k) before results item after
              IndexError Hbefore Hsnd []) as [Hscan _].
  rewrite <- Hreg in Hscan.
  rewrite (cycle_scan_raises _ _ _ Hscan). cbn [fst snd].
  split; [reflexivity|].
  split; [apply for_instruments_quiet; reflexivity|].
  split; [apply for_instruments_quiet; reflexivity|].
  assert (Hraise : snd (alert_if_instrument_inactive (cycle w k) registry)
                   = inl IndexError)
    by now rewrite (cycle_scan_raises _ _ _ Hscan).
  destruct (main_cycle_raises w registry n k t IndexError Hs Hn Hraise eq_refl)
    as [username Hmain].
  intros m. now rewrite (Hmain m).
Qed.

Lemma empty_frame_ends_the_loop_witness :
  snd (alert_if_instrument_inactive env_x_no_columns demo_registry)
  = inl IndexError
  /\ snd (main (world_of env_x_no_rows 5) demo_registry 2)
     = inr (Unexpected IndexError).
Proof.
  split.
  - refine (proj1 (proj2 (empty_frame_ends_the_loop
      (world_of env_x_no_columns 5) demo_registry 0%nat 0%nat 0 [] []
      ("X_1 (Fut)", "tX") [("Y (Fut)", "tY"); ("Z (Spt)", "tZ")] [[]]
      eq_refl eq_refl eq_refl (Forall2_nil _) eq_refl _))).
    right. now exists [].
  - refine (proj2 (proj2 (proj2 (proj2 (empty_frame_ends_the_loop
      (world_of env_x_no_rows 5) demo_registry 0%nat 0%nat 0 [] []
      ("X_1 (Fut)", "tX") [("Y (Fut)", "tY"); ("Z (Spt)", "tZ")] []
      eq_refl eq_refl eq_refl (Forall2_nil _) eq_refl _)))) 1%nat).
    now left.
Defined.

(** X9: only [CalledProcessError] is caught around the script.  If
    [subprocess.run] raises anything else (the script cannot be started),
    the exception leaves the cycle after the alert has been sent, and
    [main] is left according to the exception's class. *)
Theorem script_not_started_ends_the_loop (w : World) (registry : Dict.t)
    (n k : nat) (t : float) (failed : list string) (e : exn) :
  startup_ok w = true ->
  snd (while_true w registry n 0 (loop_start w)) = inr (k, t) ->
  snd (for_instruments (cycle w k) (Dict.items registry) []) = inr failed ->
  failed <> [] ->
  send_message (cycle w k) (alert_text failed) = inr tt ->
  subprocess_returncode (cycle w k) restart_args = inl e ->
  is_CalledProcessError e = false ->
  alert_if_instrument_inactive (cycle w k) registry
  = (fst (for_instruments (cycle w k) (Dict.items registry) [])
       ++ [SendMessage (alert_text failed); SubprocessRun restart_args],
     inl e)
  /\ (forall m,
        snd (main w registry (n + S m))
        = (if is_CancelledError e then inr Cancelled
           else if is_Exception e then inr (Unexpected e) else inl e)).
Proof.
  intros Hs Hn Hscan Hne Hsend Hrc Hcls.
  assert (Hc : alert_if_instrument_inactive (cycle w k) registry
               = (fst (for_instruments (cycle w k) (Dict.items registry) [])
                    ++ [SendMessage (alert_text failed);
                        SubprocessRun restart_args],
                  inl e)).
  { rewrite (cycle_scanned _ _ _ Hscan).
    rewrite alert_and_restart_eq by exact Hne. cbv zeta.
    now rewrite Hsend, Hrc, Hcls. }
  split; [exact Hc|].
  assert (Hi : snd (iteration w registry k t) = inl e).
  { rewrite (iteration_raises w registry k t e); [reflexivity|].
    now rewrite Hc. }
  destruct (main_pass_raises w registry n k t e Hs Hn Hi)
    as [username [_ Hmain]].
  intros m. rewrite (Hmain m). cbn [snd]. unfold loop_exit.
  destruct (is_CancelledError e); [reflexivity|].
  destruct (is_Exception e); reflexivity.
Qed.

Lemma script_not_started_ends_the_loop_witness :
  snd (alert_if_instrument_inactive env_script_missing demo_registry)
  = inl (OtherException "FileNotFoundError")
  /\ snd (main (world_of env_script_missing 5) demo_registry 3)
     = inr (Unexpected (OtherException "FileNotFoundError")).
Proof.
  assert (Hne : ["X_1 (Fut)"] <> @nil string) by discriminate.
  pose proof (script_not_started_ends_the_loop
                (world_of env_script_missing 5) demo_registry
                0%nat 0%nat 0 ["X_1 (Fut)"]
                (OtherException "FileNotFoundError")
                eq_refl eq_refl eq_refl Hne eq_refl eq_refl eq_refl) as H.
  split.
  - exact (f_equal snd (proj1 H)).
  - exact (proj2 H 2%nat).
Defined.

(** X11: which start-up failures are logged.  An exception raised by
    [Bot(token=TOKEN)] is outside the [try]: it leaves [main] unlogged,
    even when it is a [TelegramError].  Raised by [get_me] or by the
    start-up send, a [TelegramError] is logged as an error and [main]
    returns; any other exception leaves [main] unlogged.  The start-up
    message is logged before it is sent. *)
Theorem startup_exceptions (w : World) (registry : Dict.t) (fuel : nat) :
  (forall e,
      bot_new w = inl e ->
      main w registry fuel = ([LogInfo MsgInitializing; BotNew], inl e))
  /\ (forall e,
        bot_new w = inr tt ->
        get_me_username w = inl e ->
        main w registry fuel
        = if is_TelegramError e
          then ([LogInfo MsgInitializing; BotNew; GetMe;
                 LogError (MsgInitError e)], inr (InitFailed e))
          else ([LogInfo MsgInitializing; BotNew; GetMe], inl e))
  /\ (forall username e,
        bot_new w = inr tt ->
        get_me_username w = inr username ->
        startup_send w (startup_text username) = inl e ->
        main w registry fuel
        = if is_TelegramError e
          then ([LogInfo MsgInitializing; BotNew; GetMe;
                 LogInfo (MsgInitialized (startup_text username));
                 SendMessage (startup_text username);
                 LogError (MsgInitError e)], inr (InitFailed e))
          else ([LogInfo MsgInitializing; BotNew; GetMe;
                 LogInfo (MsgInitialized (startup_text username));
                 SendMessage (startup_text username)], inl e)).
Proof.
  unfold main, initialise. split; [|split].
  - intros e H. rewrite H. reflexivity.
  - intros e Hb Hg. rewrite Hb, Hg. destruct e; reflexivity.
  - intros username e Hb Hg Hsend. rewrite Hb, Hg.
    unfold emit, call, ret, bind, try_except. cbv zeta. rewrite Hsend.
    destruct e; reflexivity.
Qed.

Lemma startup_exceptions_witness :
  main (world_startup (inl (TelegramError "InvalidToken")) (inr "bot") (inr tt))
       demo_registry 3
  = ([LogInfo MsgInitializing; BotNew], inl (TelegramError "InvalidToken"))
  /\ snd (main (world_startup (inr tt) (inl (OtherException "OSError")) (inr tt))
               demo_registry 3)
     = inl (OtherException "OSError")
  /\ snd (main (world_startup (inr tt) (inr "bot")
                 (inl (TelegramError "Forbidden"))) demo_registry 3)
     = inr (InitFailed (TelegramError "Forbidden")).
Proof.
  split; [|split].
  - exact (proj1 (startup_exceptions
                    (world_startup (inl (TelegramError "InvalidToken"))
                       (inr "bot"%string) (inr tt))
                    demo_registry 3) (TelegramError "InvalidToken") eq_refl).
  - exact (f_equal snd
             (proj1 (proj2 (startup_exceptions
                (world_startup (inr tt) (inl (OtherException "OSError")) (inr tt))
                demo_registry 3)) (OtherException "OSError") eq_refl eq_refl)).
  - exact (f_equal snd
             (proj2 (proj2 (startup_exceptions
                (world_startup (inr tt) (inr "bot")
                   (inl (TelegramError "Forbidden")))
                demo_registry 3)) "bot"%string (TelegramError "Forbidden")
                eq_refl eq_refl eq_refl)).
Defined.

(** ** The loop as a whole *)

Lemma while_true_cases (w : World) (registry : Dict.t) :
  forall (n k : nat) (t : float),
    (exists t', snd (while_true w registry n k t) = inr ((k + n)%nat, t'))
    \/ (exists j tj e,
          (k <= j < k + n)%nat
          /\ snd (iteration w registry j tj) = inl e
          /\ snd (while_true w registry n k t) = inl e).
Proof.
  induction n as [|n IH]; intros k t.
  - left. exists t. cbn. now rewrite Nat.add_0_r.
  - rewrite while_true_S.
    destruct (iteration w registry k t) as [tr [e|t1]] eqn:E.
    + right. exists k, t, e. rewrite E. cbn [bind snd].
      split; [lia | split; reflexivity].
    + cbn [bind snd]. destruct (IH (S k) t1) as [[t' H]|[j [tj [e [Hj [Hi H]]]]]].
      * left. exists t'. rewrite H. f_equal. f_equal. lia.
      * right. exists j, tj, e. split; [lia | split; assumption].
Qed.

(** X13: once started, [main] is left only through an exception: after
    any number [n] of allowed passes either [main] is still in its loop,
    about to start pass [n], or one of the passes before [n] raised and
    [main] ended as the class of that exception says. *)
Theorem main_left_only_by_exception (w : World) (registry : Dict.t) (n : nat) :
  startup_ok w = true ->
  (exists t, snd (main w registry n) = inr (StillRunning n t))
  \/ (exists j tj e,
        (j < n)%nat
        /\ snd (iteration w registry j tj) = inl e
        /\ snd (main w registry n)
           = (if is_CancelledError e then inr Cancelled
              else if is_Exception e then inr (Unexpected e) else inl e)).
Proof.
  intros Hs. destruct (main_started w registry n Hs) as [username [_ Hm]].
  rewrite Hm. cbn [snd].
  destruct (while_true_cases w registry n 0 (loop_start w))
    as [[t H]|[j [tj [e [Hj [Hi H]]]]]].
  - left. exists t. cbn [Nat.add] in H.
    now rewrite (monitoring_running w registry n n t H).
  - right. exists j, tj, e. split; [lia|]. split; [exact Hi|].
    rewrite (monitoring_exit w registry n e H). cbn [snd]. unfold loop_exit.
    destruct (is_CancelledError e); [reflexivity|].
    destruct (is_Exception e); reflexivity.
Qed.

Lemma main_left_only_by_exception_witness :
  (exists t, snd (main (world_of env_x_old 5) demo_registry 3)
             = inr (StillRunning 3 t))
  \/ (exists j tj e,
        (j < 3)%nat
        /\ snd (iteration (world_of env_x_old 5) demo_registry j tj) = inl e
        /\ snd (main (world_of env_x_old 5) demo_registry 3)
           = (if is_CancelledError e then inr Cancelled
              else if is_Exception e then inr (Unexpected e) else inl e)).
Proof.
  exact (main_left_only_by_exception (world_of env_x_old 5) demo_registry 3
           eq_refl).
Defined.

Lemma iteration_returns (w : World) (registry : Dict.t) (k : nat) (t : float) :
  snd (alert_if_instrument_inactive (cycle w k) registry) = inr tt ->
  (forall delay, sleep w k delay = inr tt) ->
  snd (iteration w registry k t) = inr (loop_time_start w (S k)).
Proof.
  intros Hc Hsleep. rewrite (iteration_eq w registry k t Hc). cbv zeta.
  cbn [snd]. rewrite Hsleep.
  now destruct (truthy (sleep_time t (loop_time_end w k))).
Qed.

(** X12: while no cycle raises and no sleep is interrupted, the loop never
    ends: for every [n], after [n] passes [main] is still running and
    about to start pass [n]. *)
Theorem loop_runs_forever (w : World) (registry : Dict.t) :
  startup_ok w = true ->
  (forall k, snd (alert_if_instrument_inactive (cycle w k) registry) = inr tt) ->
  (forall k delay, sleep w k delay = inr tt) ->
  forall n,
    exists t,
      snd (main w registry n) = inr (StillRunning n t)
      /\ final_state (snd (main w registry n)) = Running.
Proof.
  intros Hs Hc Hsleep n.
  assert (Hrun : forall n k t,
             exists t', snd (while_true w registry n k t)
                        = inr ((k + n)%nat, t')).
  { clear n. induction n as [|n IH]; intros k t.
    - exists t. cbn. now rewrite Nat.add_0_r.
    - pose proof (iteration_returns w registry k t (Hc k) (Hsleep k)) as H1.
      destruct (IH (S k) (loop_time_start w (S k))) as [t' H'].
      exists t'. rewrite while_true_S, (bind_inr _ _ _ H1). cbn [snd].
      rewrite H'. f_equal. f_equal. lia. }
  destruct (Hrun n 0%nat (loop_start w)) as [t Ht]. cbn [Nat.add] in Ht.
  destruct (main_started w registry n Hs) as [username [_ Hm]].
  exists t. rewrite Hm, (monitoring_running w registry n n t Ht).
  split; reflexivity.
Qed.

Lemma loop_runs_forever_witness :
  exists t,
    snd (main (world_of env_restart_fails 5) demo_registry 4)
    = inr (StillRunning 4 t)
    /\ final_state (snd (main (world_of env_restart_fails 5) demo_registry 4))
       = Running.
Proof.
  apply (loop_runs_forever (world_of env_restart_fails 5) demo_registry).
  - reflexivity.
  - intros k. reflexivity.
  - intros k delay. reflexivity.
Defined.

(** ** Repeated alerts *)

Lemma pass_with_failures (w : World) (registry : Dict.t) (k : nat) (t : float) :
  (exists failed returncode,
      snd (for_instruments (cycle w k) (Dict.items registry) []) = inr failed
      /\ failed <> []
      /\ send_message (cycle w k) (alert_text failed) = inr tt
      /\ subprocess_returncode (cycle w k) restart_args = inr returncode) ->
  (forall delay, sleep w k delay = inr tt) ->
  snd (iteration w registry k t) = inr (loop_time_start w (S k))
  /\ count is_send (fst (iteration w registry k t)) = 1%nat
  /\ count is_run (fst (iteration w registry k t)) = 1%nat.
Proof.
  intros [failed [returncode [Hscan [Hne [Hsend Hrc]]]]] Hsleep.
  assert (Hc : snd (alert_if_instrument_inactive (cycle w k) registry)
               = inr tt).
  { rewrite (cycle_scanned _ _ _ Hscan). cbn [snd].
    rewrite alert_and_restart_eq by exact Hne. cbv zeta.
    rewrite Hsend, Hrc. now destruct (returncode =? 0)%Z. }
  split; [exact (iteration_returns w registry k t Hc Hsleep)|].
  rewrite (iteration_eq w registry k t Hc). cbv zeta. cbn [fst].
  rewrite !count_app.
  rewrite (cycle_count _ registry is_send failed)
    by (reflexivity || exact Hscan).
  rewrite (cycle_count _ registry is_run failed)
    by (reflexivity || exact Hscan).
  rewrite alert_and_restart_sends, alert_and_restart_runs, Hsend.
  destruct failed as [|f failed]; [congruence|].
  destruct (truthy (sleep_time t (loop_time_end w k))); split; reflexivity.
Qed.

(** X17: alerts are not remembered from one cycle to the next.  While the
    same situation lasts (some instrument stale, the alert delivered, the
    script run to its end, no sleep interrupted), every pass sends the
    alert again and runs the script again: [n] passes make [n] alerts and
    [n] runs. *)
Theorem alert_repeated_every_cycle (w : World) (registry : Dict.t) :
  (forall k, exists failed returncode,
      snd (for_instruments (cycle w k) (Dict.items registry) []) = inr failed
      /\ failed <> []
      /\ send_message (cycle w k) (alert_text failed) = inr tt
      /\ subprocess_returncode (cycle w k) restart_args = inr returncode) ->
  (forall k delay, sleep w k delay = inr tt) ->
  forall n k t,
    count is_send (fst (while_true w registry n k t)) = n
    /\ count is_run (fst (while_true w registry n k t)) = n.
Proof.
  intros Hc Hsleep. induction n as [|n IH]; intros k t.
  - split; reflexivity.
  - destruct (pass_with_failures w registry k t (Hc k) (Hsleep k))
      as [H1 [Hs Hr]].
    rewrite while_true_S, (bind_inr _ _ _ H1). cbn [fst].
    rewrite !count_app, Hs, Hr.
    destruct (IH (S k) (loop_time_start w (S k))) as [IHs IHr].
    rewrite IHs, IHr.
    split; reflexivity.
Qed.

Lemma alert_repeated_every_cycle_witness :
  count is_send (fst (while_true (world_of env_restart_fails 5) demo_registry
                        3 0 0%float)) = 3%nat
  /\ count is_run (fst (while_true (world_of env_restart_fails 5) demo_registry
                          3 0 0%float)) = 3%nat.
Proof.
  apply (alert_repeated_every_cycle (world_of env_restart_fails 5)
           demo_registry).
  - intros k. exists ["X_1 (Fut)"], 127%Z.
    split; [reflexivity|]. split; [discriminate|]. split; reflexivity.
  - intros k delay. reflexivity.
Defined.

(** ** More on the registry *)

Lemma Dict_set_fresh (d : Dict.t) (k v : string) :
  ~ In k (Dict.keys d) -> Dict.set d k v = d ++ [(k, v)].
Proof.
  induction d as [|[k' v'] d IH]; [reflexivity|].
  cbn [Dict.keys map fst In Dict.set app]. intros H.
  destruct (String.eqb_spec k' k) as [->|Hne]; [tauto|].
  rewrite IH; [reflexivity|]. unfold Dict.keys. tauto.
Qed.

Lemma Dict_update_fresh (other : list (string * string)) :
  forall d : Dict.t,
    NoDup (map fst (d ++ other)) -> Dict.update d other = d ++ other.
Proof.
  unfold Dict.update.
  induction other as [|[k v] other IH]; intros d H.
  - cbn. now rewrite app_nil_r.
  - cbn [fold_left fst snd].
    assert (Hk : ~ In k (Dict.keys d)).
    { rewrite map_app in H. cbn [map fst] in H.
      apply NoDup_remove_2 in H. intros Hin. apply H.
      apply in_or_app. now left. }
    rewrite (Dict_set_fresh d k v Hk), IH; rewrite <- app_assoc;
      [reflexivity | exact H].
Qed.

(** X16: whatever the three symbol tables hold, the registry built from
    them has pairwise distinct labels; and when the labels generated for
    the three groups do not collide, the registry lists the Binance
    entries, then the BitMEX ones, then the Crypto ones, each in the order
    of its table.  [instruments] is built this way. *)
Theorem registry_construction (binance : Dict.t) (bitmex : list string)
    (crypto : Dict.t) :
  NoDup (Dict.keys (instruments_of binance bitmex crypto))
  /\ (let entries := map binance_entry binance ++ map bitmex_entry bitmex
                       ++ map crypto_entry crypto in
      NoDup (map fst entries) ->
      Dict.items (instruments_of binance bitmex crypto) = entries)
  /\ instruments = instruments_of binance_symbols bitmex_symbols crypto_symbols.
Proof.
  split; [|split; [|reflexivity]].
  - unfold instruments_of. cbv zeta.
    repeat apply Dict_update_keys_NoDup. constructor.
  - intros entries H. unfold entries in *. clear entries.
    unfold instruments_of, Dict.items, Dict.of_pairs. cbv zeta.
    assert (H12 : NoDup (map fst (map binance_entry binance
                                    ++ map bitmex_entry bitmex))).
    { rewrite app_assoc, map_app in H. now apply NoDup_app_remove_r in H. }
    assert (H1 : NoDup (map fst (map binance_entry binance))).
    { rewrite map_app in H12. now apply NoDup_app_remove_r in H12. }
    assert (H2 : NoDup (map fst (map bitmex_entry bitmex))).
    { rewrite map_app in H12. now apply NoDup_app_remove_l in H12. }
    assert (H3 : NoDup (map fst (map crypto_entry crypto))).
    { rewrite map_app in H. apply NoDup_app_remove_l in H.
      rewrite map_app in H. now apply NoDup_app_remove_l in H. }
    rewrite (Dict_update_fresh (map binance_entry binance) []) by exact H1.
    rewrite (Dict_update_fresh (map bitmex_entry bitmex) []) by exact H2.
    rewrite (Dict_update_fresh (map crypto_entry crypto) []) by exact H3.
    cbn [app]. rewrite (Dict_update_fresh _ _ H12).
    rewrite Dict_update_fresh; [now rewrite <- app_assoc|].
    now rewrite <- app_assoc.
Qed.

Lemma registry_construction_witness :
  Dict.items (instruments_of [("BTCUSDT", "FutT")] ["XBTUSDT"]
                [("BTC_USD", "Spt")])
  = [ ("BTCUSDT (FutT)", "BinanceFutT_BTCUSDT_Binance_FutT_PERPETUAL");
      ("XBTUSDT (Fut)", "BitMEX_XBTUSDT_BitMEX_PERP");
      ("BTC_USD (Spt)", "Crypto_BTC_USD_Crypto_Spt_SPOT") ].
Proof.
  apply (proj1 (proj2 (registry_construction [("BTCUSDT", "FutT")] ["XBTUSDT"]
                         [("BTC_USD", "Spt")]))).
  repeat constructor; cbn; intuition discriminate.
Defined.
